(** * Painel de acompanhamento da pesquisa de satisfação: the data pipeline

    A shallow embedding of the data transformations of [app.py]: loading the
    stored answers into a frame ([carregar_dados]), the headline metrics, the
    two cross-tabulations, the daily series and the filtered detail table with
    its small statistics block.

    A pandas frame is a list of rows, a column is the list of one field of
    those rows, a boolean mask is a decidable predicate on rows, and
    [df[mask]] is [filter].  Python exceptions are values of [resultado].
    A Python float is a binary64 value of [SpecFloat], with the rounding
    of IEEE 754; the [:.1f] formatting is outside the model. *)

From Stdlib Require Import ZArith SpecFloat Lia.
From stdpp Require Import list strings sorting.

Set Warnings "-clear-no-such-hyp".

Local Open Scope nat_scope.

(** ** Python results: a value or a raised exception *)

Module Py.

Inductive excecao : Type :=
| ErroConsulta (msg : string)     (* whatever [obter_todas_respostas] raised *)
| ErroData (valor : string)       (* [pd.to_datetime] could not read [valor] *)
| ZeroDivisionError
| KeyError.

Inductive resultado (A : Type) : Type :=
| Ok (a : A)
| Erro (e : excecao).
Arguments Ok {A} a.
Arguments Erro {A} e.

Definition bind {A B} (r : resultado A) (k : A → resultado B) : resultado B :=
  match r with
  | Ok a => k a
  | Erro e => Erro e
  end.

Definition ret {A} (a : A) : resultado A := Ok a.

(** [try: corpo  except Exception as e: tratador(e)] *)
Definition try_except {A} (corpo : resultado A) (tratador : excecao → A) : A :=
  match corpo with
  | Ok a => a
  | Erro e => tratador e
  end.

(** A Python float: binary64. *)
Definition float : Type := spec_float.

(** [float(z)]: the nearest binary64 value, exact below 2^53. *)
Definition float_of_int (z : Z) : float := binary_normalize 53 1024 z 0 false.

Definition fmul (x y : float) : float := SFmul 53 1024 x y.
Definition fdiv (x y : float) : float := SFdiv 53 1024 x y.

(** [a / b] on Python ints: true division, raising on a zero divisor.  The
    quotient is rounded once; for operands below 2^53, as the counts of a
    frame are, that is the quotient of the two floats. *)
Definition truediv (a b : Z) : resultado float :=
  if (b =? 0)%Z then Erro ZeroDivisionError
  else Ok (fdiv (float_of_int a) (float_of_int b)).

(** [s[0]] on a Series: the first element, [KeyError] on an empty one. *)
Definition primeiro {A} (s : list A) : resultado A :=
  match s with
  | x :: _ => Ok x
  | [] => Erro KeyError
  end.

End Py.

Import Py.

#[global] Instance resultado_bind : MBind resultado := λ A B k r, Py.bind r k.
#[global] Instance resultado_ret : MRet resultado := λ A a, Py.ret a.

(** ** The order of labels

    Python compares [str] values by code point; on the UTF-8 bytes of a
    Rocq string that is [String.compare]. *)

Module Rotulo.

Definition le (a b : string) : Prop := String.leb a b = true.
Definition lt (a b : string) : Prop := String.ltb a b = true.

#[global] Instance le_dec a b : Decision (le a b).
Proof. unfold le. apply _. Defined.

#[global] Instance lt_dec a b : Decision (lt a b).
Proof. unfold lt. apply _. Defined.

End Rotulo.

(** ** pandas primitives on a column *)

Section Coluna.
Context {A : Type} `{EqDecision A}.

(** [len(s[s == v])] *)
Definition conta (v : A) (s : list A) : nat :=
  length (filter (λ x, x = v) s).

(** [Series.unique()]: the distinct values in order of first appearance. *)
Fixpoint unique (s : list A) : list A :=
  match s with
  | [] => []
  | x :: r => x :: filter (λ y, y ≠ x) (unique r)
  end.

(** [s.isin(valores)] at one position. *)
Definition isin (x : A) (valores : list A) : Prop := x ∈ valores.

(** The keys of a sorted [groupby]: the distinct values, ascending. *)
Definition chaves (R : relation A) `{∀ x y, Decision (R x y)} (s : list A) : list A :=
  merge_sort R (remove_dups s).

(** [groupby(...).size()] on the key column, null keys already dropped. *)
Definition groupby_size (R : relation A) `{∀ x y, Decision (R x y)} (s : list A)
  : list (A * nat) :=
  (λ k, (k, conta k s)) <$> chaves R s.

(** [Series.value_counts()] on a column without nulls: each distinct value
    with its count, the higher counts first.  pandas does not fix the order
    among values of equal count; no property below depends on it. *)
Definition antes (a b : A * nat) : Prop := b.2 ≤ a.2.

#[global] Instance antes_dec a b : Decision (antes a b).
Proof. unfold antes. apply _. Defined.

Definition value_counts (s : list A) : list (A * nat) :=
  merge_sort antes ((λ v, (v, conta v s)) <$> unique s).

End Coluna.

(** ** The data model *)

(** What the store may hand over in the boolean column. *)
Inductive pyval : Type :=
| PyNone
| PyBool (b : bool)
| PyStr (s : string).

(** What the store may hand over in the timestamp column, as
    [pd.to_datetime] sees it: a value it reads as an instant (seconds since
    the epoch, no time zone), a null, or a text it cannot read. *)
Inductive celula_data : Type :=
| Instante (t : Z)
| DataNula
| DataIlegivel (texto : string).

(** One tuple of [obter_todas_respostas()], in the order of [colunas]. *)
Record Resposta : Type := mkResposta {
  r_id : Z;
  r_setor : string;
  r_material_faltando : pyval;
  r_qual_material : option string;
  r_qualidade_servico : string;
  r_mensagem : option string;
  r_data_registro : celula_data
}.

(** One row of the frame [df].  [None] in [Material_Faltando] is NaN and
    [None] in [Data_Registro] is NaT. *)
Record Linha : Type := mkLinha {
  ID : Z;
  Setor : string;
  Material_Faltando : option string;
  Qual_Material : option string;
  Qualidade_Servico : string;
  Mensagem : option string;
  Data_Registro : option Z
}.

#[global] Instance Linha_eq_dec : EqDecision Linha.
Proof. solve_decision. Defined.

Abbreviation DataFrame := (list Linha).

(** [df.empty] *)
Definition empty (df : DataFrame) : bool :=
  match df with
  | [] => true
  | _ :: _ => false
  end.

Definition Sim : string := "Sim".
Definition Nao : string := "Não".
Definition Todos : string := "Todos".
Definition Muito_Bom : string := "Muito Bom".
Definition Bom : string := "Bom".
Definition N_A : string := "N/A".

(** ** [carregar_dados] *)

(** [.map({True: 'Sim', False: 'Não'})]: a value that is no key of the
    dictionary becomes NaN. *)
Definition map_sim_nao (v : pyval) : option string :=
  match v with
  | PyBool true => Some Sim
  | PyBool false => Some Nao
  | _ => None
  end.

(** [pd.to_datetime] at one cell. *)
Definition to_datetime1 (c : celula_data) : resultado (option Z) :=
  match c with
  | Instante t => Ok (Some t)
  | DataNula => Ok None
  | DataIlegivel s => Erro (ErroData s)
  end.

(** [pd.to_datetime] on the whole column: the first unreadable cell raises. *)
Fixpoint to_datetime (col : list celula_data) : resultado (list (option Z)) :=
  match col with
  | [] => Ok []
  | c :: r =>
      t ← to_datetime1 c ;
      ts ← to_datetime r ;
      Ok (t :: ts)
  end.

Definition linha_de (r : Resposta) (t : option Z) : Linha :=
  {| ID := r_id r;
     Setor := r_setor r;
     Material_Faltando := map_sim_nao (r_material_faltando r);
     Qual_Material := r_qual_material r;
     Qualidade_Servico := r_qualidade_servico r;
     Mensagem := r_mensagem r;
     Data_Registro := t |}.

(** What an unreadable timestamp cell is, and what a readable one holds. *)
Definition ilegivel (c : celula_data) : bool :=
  match c with
  | DataIlegivel _ => true
  | _ => false
  end.

Definition instante_de (c : celula_data) : option Z :=
  match c with
  | Instante t => Some t
  | _ => None
  end.

(** What the page shows besides the frame. *)
Inductive evento : Type :=
| st_error (e : excecao).

(** The body of the [try]. *)
Definition carregar_dados_corpo (consulta : resultado (list Resposta)) : resultado DataFrame :=
  respostas ← consulta ;
  match respostas with
  | _ :: _ =>
      datas ← to_datetime (r_data_registro <$> respostas) ;
      Ok (zip_with linha_de respostas datas)
  | [] => Ok []
  end.

(** [carregar_dados()], given the outcome of [obter_todas_respostas()]:
    the frame returned and what was written to the page. *)
Definition carregar_dados (consulta : resultado (list Resposta)) : DataFrame * list evento :=
  try_except
    (df ← carregar_dados_corpo consulta ; Ok (df, []))
    (λ e, ([], [st_error e])).

(** *** [@st.cache_data(ttl=300)]

    The decorator keeps the last value returned, together with what the
    function wrote to the page while computing it and with the time it was
    computed; a call within [ttl] seconds does not run the function: it
    returns the kept value and writes the kept messages to the page again. *)

Definition ttl : Z := 300.

Definition Cache : Type := option (Z * (DataFrame * list evento)).

Definition fresco (agora : Z) (c : Cache) : option (DataFrame * list evento) :=
  match c with
  | Some (t, r) => if (agora <? t + ttl)%Z then Some r else None
  | None => None
  end.

(** A call of the decorated function at time [agora]; [consulta] is what the
    store would answer if asked. *)
Definition carregar_dados_cache (agora : Z) (consulta : resultado (list Resposta))
    (c : Cache) : DataFrame * list evento * Cache :=
  match fresco agora c with
  | Some (df, ev) => (df, ev, c)
  | None =>
      let '(df, ev) := carregar_dados consulta in
      (df, ev, Some (agora, (df, ev)))
  end.

(** [st.cache_data.clear()] *)
Definition cache_clear (c : Cache) : Cache := None.

(** ** The detail table: filters *)

(** Lines 227 to 230. *)
Definition mascara_setor_qualidade (setores qualidades : list string) (l : Linha) : Prop :=
  isin (Setor l) setores ∧ isin (Qualidade_Servico l) qualidades.

#[global] Instance mascara_setor_qualidade_dec ss qs l :
  Decision (mascara_setor_qualidade ss qs l).
Proof. unfold mascara_setor_qualidade, isin. apply _. Defined.

(** Lines 227 to 233. *)
Definition df_filtrado (df : DataFrame) (setores_selecionados qualidade_selecionada : list string)
    (material_selecionado : string) : DataFrame :=
  let df_filtrado := filter (mascara_setor_qualidade setores_selecionados qualidade_selecionada) df in
  if decide (material_selecionado ≠ Todos)
  then filter (λ l, Material_Faltando l = Some material_selecionado) df_filtrado
  else df_filtrado.

(** The two branches of lines 227 to 233 as one mask. *)
Definition passa (ss qs : list string) (m : string) (l : Linha) : Prop :=
  mascara_setor_qualidade ss qs l ∧ (m = Todos ∨ Material_Faltando l = Some m).

#[global] Instance passa_dec ss qs m l : Decision (passa ss qs m l).
Proof. unfold passa. apply _. Defined.

(** The selections the page starts with (lines 206 to 224): every sector and
    every rating of the frame, and "Todos". *)
Definition setores_padrao (df : DataFrame) : list string := unique (Setor <$> df).
Definition qualidades_padrao (df : DataFrame) : list string := unique (Qualidade_Servico <$> df).

(** ** The headline metrics (lines 69 to 80)

    These lines run under the [else] of [if df.empty], on a frame with at
    least one row; the expressions are modelled as written, guard included,
    on any frame.  The integer [0] of an [else] branch is written as the
    float 0, which [:.1f] shows the same way. *)

Definition total_respostas (df : DataFrame) : nat := length df.

Definition material_faltando (df : DataFrame) : nat :=
  length (filter (λ l, Material_Faltando l = Some Sim) df).

Definition percentual_falta (df : DataFrame) : resultado float :=
  if 0 <? total_respostas df
  then q ← truediv (Z.of_nat (material_faltando df)) (Z.of_nat (total_respostas df)) ;
       Ok (fmul q (float_of_int 100))
  else Ok (float_of_int 0).

Definition satisfacao_boa (df : DataFrame) : nat :=
  length (filter (λ l, isin (Qualidade_Servico l) [Muito_Bom; Bom]) df).

Definition percentual_satisfacao (df : DataFrame) : resultado float :=
  if 0 <? total_respostas df
  then q ← truediv (Z.of_nat (satisfacao_boa df)) (Z.of_nat (total_respostas df)) ;
       Ok (fmul q (float_of_int 100))
  else Ok (float_of_int 0).

(** Line 84.  [Series.max()] passes over NaT, and is NaT ([None]) when no
    row has a timestamp. *)
Definition ultima_resposta (df : DataFrame) : option Z :=
  match omap Data_Registro df with
  | [] => None
  | t :: ts => Some (foldr Z.max t ts)
  end.

(** Line 85, [agora] being [datetime.now()]: the whole days of the
    difference, rounded down; with NaT the difference is NaT and has no
    days. *)
Definition dias_atras (agora : Z) (df : DataFrame) : option Z :=
  (λ u, (agora - u) / 86400)%Z <$> ultima_resposta df.

(** ** The counts behind the charts (lines 97, 109 and 142) *)

Definition setor_counts (df : DataFrame) : list (string * nat) :=
  value_counts (Setor <$> df).

Definition qualidade_counts (df : DataFrame) : list (string * nat) :=
  value_counts (Qualidade_Servico <$> df).

(** Line 142: the materials named in the rows with material missing; a row
    that names none is not counted. *)
Definition material_falta (df : DataFrame) : list (string * nat) :=
  value_counts (omap Qual_Material (filter (λ l, Material_Faltando l = Some Sim) df)).

(** Lines 144 to 156: the chart is drawn unless [material_falta.empty]. *)
Definition mostra_tipos (df : DataFrame) : bool :=
  match material_falta df with
  | [] => false
  | _ :: _ => true
  end.

(** ** The cross-tabulations (lines 130 and 180)

    [pd.crosstab(a, b)] counts the rows by the pair of their values in the
    two columns, leaving out the rows where either value is null; its index
    and its columns are the values that occur, each sorted ascending. *)

Record CrossTab : Type := mkCrossTab {
  index : list string;
  columns : list string;
  values : list (list nat)
}.

Definition crosstab (pares : list (string * string)) : CrossTab :=
  let idx := chaves Rotulo.le (pares.*1) in
  let cols := chaves Rotulo.le (pares.*2) in
  {| index := idx;
     columns := cols;
     values := (λ r, (λ c, conta (r, c) pares) <$> cols) <$> idx |}.

Definition pares_setor_material (df : DataFrame) : list (string * string) :=
  omap (λ l, m ← Material_Faltando l ; Some (Setor l, m)) df.

Definition pares_setor_qualidade (df : DataFrame) : list (string * string) :=
  (λ l, (Setor l, Qualidade_Servico l)) <$> df.

Definition material_setor (df : DataFrame) : CrossTab :=
  crosstab (pares_setor_material df).

Definition qualidade_setor (df : DataFrame) : CrossTab :=
  crosstab (pares_setor_qualidade df).

(** ** The daily series (lines 163 and 164) *)

(** [.dt.date] of an instant: its day, counted from the epoch. *)
Definition dt_date (t : Z) : Z := (t / 86400)%Z.

(** [df['Data']]: NaT stays null. *)
Definition coluna_Data (df : DataFrame) : list (option Z) :=
  (λ l, dt_date <$> Data_Registro l) <$> df.

(** [df.groupby('Data').size().reset_index(name='Quantidade')]: the rows with
    a null key belong to no group. *)
Definition respostas_diarias (df : DataFrame) : list (Z * nat) :=
  groupby_size Z.le (omap id (coluna_Data df)).

(** ** The statistics of the filtered table (lines 242 to 255) *)

(** [Series.mode()]: the values of highest count, sorted ascending. *)
Definition mode (s : list string) : list string :=
  let valores := remove_dups s in
  let maximo := max_list_with (λ v, conta v s) valores in
  merge_sort Rotulo.le (filter (λ v, conta v s = maximo) valores).

(** Line 250. *)
Definition media_qualidade (df_filtrado : DataFrame) : resultado string :=
  if negb (empty df_filtrado)
  then primeiro (mode (Qualidade_Servico <$> df_filtrado))
  else Ok N_A.

Definition material_falta_filtrado (df_filtrado : DataFrame) : nat :=
  length (filter (λ l, Material_Faltando l = Some Sim) df_filtrado).

Record Estatisticas : Type := mkEstatisticas {
  respostas_filtradas : nat;
  avaliacao_mais_comum : string;
  material_faltando_filtrado : nat
}.

(** The block under [if not df_filtrado.empty]: nothing is shown for an
    empty table. *)
Definition estatisticas (df_filtrado : DataFrame) : resultado (option Estatisticas) :=
  if negb (empty df_filtrado)
  then m ← media_qualidade df_filtrado ;
       Ok (Some {| respostas_filtradas := length df_filtrado;
                   avaliacao_mais_comum := m;
                   material_faltando_filtrado := material_falta_filtrado df_filtrado |})
  else Ok None.

(** ** The filter specification, as a reader of the page sees it *)

(** The three positions of the select box. *)
Inductive TriEstado : Type :=
| Qualquer
| SoFaltando
| SoSemFalta.

(** The option of the select box that stands for each position. *)
Definition opcao (m : TriEstado) : string :=
  match m with
  | Qualquer => Todos
  | SoFaltando => Sim
  | SoSemFalta => Nao
  end.

(** The boolean a position asks for, if it asks for one. *)
Definition pedido (m : TriEstado) : option bool :=
  match m with
  | Qualquer => None
  | SoFaltando => Some true
  | SoSemFalta => Some false
  end.

(** The boolean behind the text of a row, if the text is one of the two the
    load writes. *)
Definition materialMissing (l : Linha) : option bool :=
  match Material_Faltando l with
  | Some s => if decide (s = Sim) then Some true
              else if decide (s = Nao) then Some false
              else None
  | None => None
  end.

(** ** Notions of the specification that the source does not have *)

(** The rank of a rating in the fixed enumeration (Very Good first, then
    Good, ...).  The source names the two top levels only (line 78); every
    other label ranks below them. *)
Definition rank (q : string) : nat :=
  if decide (q = Muito_Bom) then 0 else if decide (q = Bom) then 1 else 2.

(** "Ties for the highest count go to the lowest enumeration rank." *)
Definition desempate_por_rank (df : DataFrame) : Prop :=
  ∀ q q' : string,
    media_qualidade df = Ok q →
    (∀ x, conta x (Qualidade_Servico <$> df) ≤ conta q' (Qualidade_Servico <$> df)) →
    rank q ≤ rank q'.

(** "Row and column keys come in first-seen order." *)
Definition chaves_por_primeira_vista (df : DataFrame) : Prop :=
  index (material_setor df) = unique (pares_setor_material df).*1
  ∧ columns (material_setor df) = unique (pares_setor_material df).*2
  ∧ index (qualidade_setor df) = unique (Setor <$> df).

(** "The rating keys come in enumeration rank order." *)
Definition colunas_por_rank (df : DataFrame) : Prop :=
  StronglySorted (λ a b, rank a < rank b) (columns (qualidade_setor df)).


(** "A failed query leaves the snapshot that was held as it was." *)
Definition falha_preserva_snapshot (agora : Z) (e : excecao) (c : Cache) : Prop :=
  (carregar_dados_cache agora (Erro e) c).2 = c.

(** A stored tuple fails normalization on its boolean or on its timestamp.
    (The third way to fail, a rating outside the enumeration, does not arise
    in the sample tuples below: they are all rated "Bom".) *)
Definition falha_normalizacao (r : Resposta) : Prop :=
  (∀ b, r_material_faltando r ≠ PyBool b) ∨ (∃ s, r_data_registro r = DataIlegivel s).

(** "A tuple is left out of the frame exactly when it fails normalization." *)
Definition pula_as_invalidas (rs : list Resposta) : Prop :=
  ∀ r, r ∈ rs →
    (¬ falha_normalizacao r ↔ ∃ l, l ∈ (carregar_dados (Ok rs)).1 ∧ ID l = r_id r).

(** ** Sample data *)

Definition linha (id : Z) (setor : string) (material : option string)
    (qualidade : string) (instante : option Z) : Linha :=
  mkLinha id setor material None qualidade None instante.

(** Two answers on two days, the later one stored first. *)
Definition df_BA : DataFrame :=
  [ linha 1 "B" (Some Sim) Muito_Bom (Some 90000%Z);
    linha 2 "A" (Some Nao) Bom (Some 100%Z) ].

(** A single answer, with material missing. *)
Definition df_um : DataFrame :=
  [ linha 1 "A" (Some Sim) Bom (Some 100%Z) ].

(** Ten answers: three with material missing, six rated in the top two
    levels. *)
Definition df_dez : DataFrame :=
  [ linha 1 "A" (Some Sim) Muito_Bom (Some 100%Z);
    linha 2 "A" (Some Sim) Muito_Bom (Some 200%Z);
    linha 3 "B" (Some Sim) Muito_Bom (Some 300%Z);
    linha 4 "B" (Some Nao) Bom (Some 86500%Z);
    linha 5 "B" (Some Nao) Bom (Some 86600%Z);
    linha 6 "C" (Some Nao) Bom (Some 86700%Z);
    linha 7 "C" (Some Nao) "Regular" (Some 172900%Z);
    linha 8 "C" (Some Nao) "Regular" (Some 173000%Z);
    linha 9 "D" (Some Nao) "Ruim" (Some 173100%Z);
    linha 10 "D" (Some Nao) "Ruim" (Some 173200%Z) ].

Definition resposta (id : Z) (material : pyval) (data : celula_data) : Resposta :=
  mkResposta id "A" material None Bom None data.

(** A tuple as the form writes it. *)
Definition resposta_boa : Resposta := resposta 2 (PyBool false) (Instante 100).


(** A tuple whose boolean column holds a text. *)
Definition resposta_bool_ruim : Resposta := resposta 1 (PyStr "talvez") (Instante 50).

(** A tuple whose timestamp column holds a text that is no date. *)
Definition resposta_data_ruim : Resposta := resposta 1 (PyBool true) (DataIlegivel "ontem").

(** * Properties *)

(** ** The order of labels is a total order *)

Module RotuloFacts.
Import Rotulo.

Lemma ascii_compare_lt_trans (a b c : Ascii.ascii) :
  Ascii.compare a b = Lt → Ascii.compare b c = Lt → Ascii.compare a c = Lt.
Proof.
  unfold Ascii.compare. rewrite !N.compare_lt_iff. lia.
Qed.

Lemma compare_refl (s : string) : String.compare s s = Eq.
Proof.
  induction s as [|a s IH]; [done|]. simpl.
  unfold Ascii.compare. by rewrite N.compare_refl.
Qed.

Lemma compare_lt_trans (s1 s2 s3 : string) :
  String.compare s1 s2 = Lt → String.compare s2 s3 = Lt → String.compare s1 s3 = Lt.
Proof.
  revert s2 s3. induction s1 as [|a s1 IH]; intros [|b s2] [|c s3]; simpl; try done.
  destruct (Ascii.compare a b) eqn:Hab; [|clear IH|done].
  - apply Ascii.compare_eq_iff in Hab as ->.
    destruct (Ascii.compare b c); [apply IH|done|done].
  - intros _. destruct (Ascii.compare b c) eqn:Hbc; [| |done].
    + apply Ascii.compare_eq_iff in Hbc as <-. by rewrite Hab.
    + by rewrite (ascii_compare_lt_trans a b c).
Qed.

Lemma le_lt_or_eq (a b : string) : le a b ↔ lt a b ∨ a = b.
Proof.
  unfold le, lt, String.leb, String.ltb.
  destruct (String.compare a b) eqn:Hc.
  - apply String.compare_eq_iff in Hc. naive_solver.
  - naive_solver.
  - split; [done|]. intros [?| ->]; [done|]. by rewrite compare_refl in Hc.
Qed.

Lemma lt_irrefl (a : string) : ¬ lt a a.
Proof. unfold lt, String.ltb. by rewrite compare_refl. Qed.

#[global] Instance lt_trans : Transitive lt.
Proof.
  intros a b c. unfold lt, String.ltb.
  destruct (String.compare a b) eqn:Hab; try done.
  destruct (String.compare b c) eqn:Hbc; try done.
  by rewrite (compare_lt_trans a b c).
Qed.

#[global] Instance le_refl : Reflexive le.
Proof. intros a. apply le_lt_or_eq. by right. Qed.

#[global] Instance le_trans : Transitive le.
Proof.
  intros a b c. rewrite !le_lt_or_eq.
  intros [Hab| ->] [Hbc| ->]; eauto. left. by trans b.
Qed.

#[global] Instance le_antisym : AntiSymm (=) le.
Proof. intros a b. apply String.leb_antisym. Qed.

#[global] Instance le_total : Total le.
Proof. intros a b. apply String.leb_total. Qed.

#[global] Instance le_po : PartialOrder le.
Proof. repeat split; apply _. Qed.

Lemma strict_le_lt (a b : string) : strict le a b ↔ lt a b.
Proof.
  unfold strict. rewrite !le_lt_or_eq. split.
  - intros [[?| ->] Hn]; [done|]. destruct Hn. by right.
  - intros Hab. split; [by left|].
    intros [Hba| ->]; [|by apply lt_irrefl in Hab].
    apply (lt_irrefl a). by trans b.
Qed.

End RotuloFacts.

(** ** Sorted group keys and group sizes *)

Lemma StronglySorted_impl {A} (R1 R2 : relation A) (l : list A) :
  (∀ x y, R1 x y → R2 x y) → StronglySorted R1 l → StronglySorted R2 l.
Proof.
  intros HR. induction 1 as [|x l Hl IH Hx]; constructor; [done|].
  eapply Forall_impl; eauto.
Qed.

Section Grupos.
Context {A : Type} `{EqDecision A}.
Context (R : relation A) `{!∀ x y, Decision (R x y)} `{!PartialOrder R} `{!Total R}.
Implicit Types (s : list A) (x k : A).

Lemma elem_of_chaves s x : x ∈ chaves R s ↔ x ∈ s.
Proof. unfold chaves. by rewrite merge_sort_Permutation, elem_of_remove_dups. Qed.

Lemma NoDup_chaves s : NoDup (chaves R s).
Proof. unfold chaves. rewrite merge_sort_Permutation. apply NoDup_remove_dups. Qed.

Lemma StronglySorted_chaves s : StronglySorted R (chaves R s).
Proof. apply StronglySorted_merge_sort; apply _. Qed.

(** Sorted without repetition is strictly sorted. *)
Lemma StronglySorted_strict (l : list A) :
  StronglySorted R l → NoDup l → StronglySorted (strict R) l.
Proof.
  induction 1 as [|x l Hl IH Hx]; intros Hnd; [constructor|].
  apply NoDup_cons in Hnd as [Hnotin Hnd]. constructor; [by apply IH|].
  rewrite Forall_forall in Hx |- *. intros y Hy. split; [by apply Hx|].
  intros Hyx. assert (x = y) as -> by (apply (anti_symm R); auto). done.
Qed.

Lemma chaves_estrito s : StronglySorted (strict R) (chaves R s).
Proof. apply StronglySorted_strict; [apply StronglySorted_chaves|apply NoDup_chaves]. Qed.

(** The keys do not depend on the order of the rows. *)
Lemma chaves_Permutation s1 s2 : s1 ≡ₚ s2 → chaves R s1 = chaves R s2.
Proof.
  intros Hp. apply (StronglySorted_unique R); try apply StronglySorted_chaves.
  apply NoDup_Permutation; try apply NoDup_chaves.
  intros x. rewrite !elem_of_chaves. by rewrite Hp.
Qed.

Lemma conta_cons x k s :
  conta k (x :: s) = (if decide (x = k) then 1 else 0) + conta k s.
Proof. unfold conta. rewrite filter_cons. by case_decide. Qed.

Lemma conta_pos s k : k ∈ s ↔ 0 < conta k s.
Proof.
  induction s as [|x s IH]; [by rewrite elem_of_nil; compute; lia|].
  rewrite conta_cons, elem_of_cons. case_decide; [naive_solver lia|].
  rewrite IH. naive_solver lia.
Qed.

Lemma soma_indicador x (ks : list A) :
  NoDup ks → x ∈ ks →
  sum_list_with (λ k, if decide (x = k) then 1 else 0) ks = 1.
Proof.
  induction 1 as [|k ks Hk Hnd IH]; [by intros ?%elem_of_nil|].
  simpl. intros [->|Hin]%elem_of_cons.
  - rewrite decide_True by done.
    assert (sum_list_with (λ k0, if decide (k = k0) then 1 else 0) ks = 0) as ->; [|done].
    clear IH Hnd. induction ks as [|y ks IH]; [done|]. simpl.
    apply not_elem_of_cons in Hk as [? ?]. rewrite decide_False by done. by apply IH.
  - rewrite decide_False by (by intros ->). by rewrite IH.
Qed.

(** Every row falls in exactly one group. *)
Lemma soma_conta (ks : list A) s :
  NoDup ks → (∀ x, x ∈ s → x ∈ ks) →
  sum_list_with (λ k, conta k s) ks = length s.
Proof.
  intros Hnd. induction s as [|x s IH]; intros Hin.
  - induction ks as [|k ks IHk]; [done|]. simpl.
    rewrite IHk; [done|by apply NoDup_cons in Hnd as [? ?]|by intros ? ?%elem_of_nil].
  - assert (sum_list_with (λ k, conta k (x :: s)) ks =
            sum_list_with (λ k, if decide (x = k) then 1 else 0) ks
            + sum_list_with (λ k, conta k s) ks) as ->.
    { clear. induction ks as [|k ks IHk]; [done|]. simpl.
      rewrite conta_cons. lia. }
    rewrite soma_indicador by (try done; apply Hin; by left).
    rewrite IH by (intros; apply Hin; by right). done.
Qed.

Lemma groupby_size_chaves s : (groupby_size R s).*1 = chaves R s.
Proof.
  unfold groupby_size. rewrite <- list_fmap_compose. apply list_fmap_id.
Qed.


Lemma groupby_size_soma s : sum_list (groupby_size R s).*2 = length s.
Proof.
  unfold groupby_size. rewrite <- list_fmap_compose.
  rewrite <- (soma_conta (chaves R s) s).
  - generalize (chaves R s). intros ks.
    induction ks as [|k ks IHk]; [done|]. cbn. by rewrite IHk.
  - apply NoDup_chaves.
  - intros x. by rewrite elem_of_chaves.
Qed.

End Grupos.

(** ** Loading *)

Section Carga.
Implicit Types (rs : list Resposta) (col : list celula_data) (e : excecao) (c : Cache).

Lemma to_datetime_legivel col :
  forallb (λ x, negb (ilegivel x)) col = true →
  to_datetime col = Ok (instante_de <$> col).
Proof.
  induction col as [|x col IH]; [done|]. cbn [forallb].
  intros [Hx Hcol]%andb_prop. cbn [to_datetime].
  rewrite (IH Hcol). by destruct x.
Qed.

Lemma to_datetime_ilegivel col :
  forallb (λ x, negb (ilegivel x)) col = false →
  ∃ s, DataIlegivel s ∈ col ∧ to_datetime col = Erro (ErroData s).
Proof.
  induction col as [|x col IH]; [done|]. cbn [forallb to_datetime].
  destruct x as [t| |s]; cbn.
  - intros (s & Hs & ->)%IH. exists s. split; [by right|done].
  - intros (s & Hs & ->)%IH. exists s. split; [by right|done].
  - intros _. exists s. split; [by left|done].
Qed.

Lemma zip_with_linha_de rs :
  zip_with linha_de rs (instante_de <$> (r_data_registro <$> rs)) =
  (λ r, linha_de r (instante_de (r_data_registro r))) <$> rs.
Proof. induction rs as [|r rs IH]; [done|]. cbn. by rewrite IH. Qed.

Lemma carregar_dados_cons r rs :
  carregar_dados (Ok (r :: rs)) =
    match to_datetime (r_data_registro <$> r :: rs) with
    | Ok datas => (zip_with linha_de (r :: rs) datas, [])
    | Erro e => ([], [st_error e])
    end.
Proof.
  unfold carregar_dados, carregar_dados_corpo, mbind, resultado_bind, Py.bind.
  by destruct (to_datetime _).
Qed.

Lemma forallb_fmap {A B} (f : A → B) (p : B → bool) (l : list A) :
  forallb p (f <$> l) = forallb (λ x, p (f x)) l.
Proof. induction l as [|x l IH]; [done|]. cbn. by rewrite IH. Qed.

Lemma carregar_dados_falha e : carregar_dados (Erro e) = ([], [st_error e]).
Proof. done. Qed.

Lemma carregar_dados_vazio : carregar_dados (Ok []) = ([], []).
Proof. done. Qed.

End Carga.

(** C6, as the code has it.  A failed query raises nothing: the load shows
    the error on the page and returns the empty frame, the same frame as
    for a store without answers.  The query is made only when no fresh
    value is kept, and then the empty frame, with its error message, takes
    the place of whatever was kept, with a fresh lifetime of its own; while
    a value is fresh the call returns it and shows its messages again. *)
Theorem carga_falha_devolve_vazio (agora : Z) (e : excecao) (c : Cache) :
  carregar_dados (Erro e) = ([], [st_error e])
  ∧ (carregar_dados (Erro e)).1 = (carregar_dados (Ok [])).1
  ∧ carregar_dados_cache agora (Erro e) c =
      match fresco agora c with
      | Some (df, ev) => (df, ev, c)
      | None => ([], [st_error e], Some (agora, ([], [st_error e])))
      end
  ∧ fresco agora (Some (agora, ([], [st_error e]))) = Some ([], [st_error e]).
Proof.
  split_and!.
  - done.
  - done.
  - unfold carregar_dados_cache. by destruct (fresco agora c) as [[df ev]|].
  - unfold fresco, ttl. destruct (Z.ltb_spec agora (agora + 300)); [done|lia].
Qed.

(** C6, as the claim has it, fails: the caller of a failed load is handed
    the empty frame, not an error, and a frame kept at time 0 is gone after a
    failed query at time 301. *)
Lemma carga_falha_descarta_snapshot :
  carregar_dados (Erro (ErroConsulta "conexão recusada"))
    = ([], [st_error (ErroConsulta "conexão recusada")])
  ∧ carregar_dados_cache 301 (Erro (ErroConsulta "conexão recusada"))
      (Some (0%Z, (df_um, [])))
    = ([], [st_error (ErroConsulta "conexão recusada")],
       Some (301%Z, ([], [st_error (ErroConsulta "conexão recusada")])))
  ∧ ¬ falha_preserva_snapshot 301 (ErroConsulta "conexão recusada")
        (Some (0%Z, (df_um, []))).
Proof.
  split_and!; [reflexivity|reflexivity|]. unfold falha_preserva_snapshot. by vm_compute.
Qed.

(** C7, as the code has it.  No tuple is left out.  If every timestamp cell
    is readable the frame has one row for each tuple, in order: a boolean
    that is neither [True] nor [False] leaves a null text, the rating is kept
    as stored, whatever it is.  If some timestamp cell is unreadable the whole
    load fails: the error is shown and the frame is empty. *)
Theorem carga_nao_pula_linhas (rs : list Resposta) :
  if forallb (λ r, negb (ilegivel (r_data_registro r))) rs
  then carregar_dados (Ok rs) =
         ((λ r, linha_de r (instante_de (r_data_registro r))) <$> rs, [])
  else ∃ s, DataIlegivel s ∈ r_data_registro <$> rs
            ∧ carregar_dados (Ok rs) = ([], [st_error (ErroData s)]).
Proof.
  destruct (forallb _ rs) eqn:Hrs.
  - destruct rs as [|r rs]; [done|].
    rewrite carregar_dados_cons, to_datetime_legivel.
    + by rewrite zip_with_linha_de.
    + by rewrite forallb_fmap.
  - destruct (to_datetime_ilegivel (r_data_registro <$> rs)) as (s & Hs & Hdt).
    + by rewrite forallb_fmap.
    + exists s. split; [done|]. destruct rs as [|r rs]; [done|].
      by rewrite carregar_dados_cons, Hdt.
Qed.

(** C7, as the claim has it, fails twice: the tuple with a bad boolean is in
    the frame all the same, and next to a tuple with an unreadable timestamp
    the good tuple is lost with the whole load. *)
Lemma carga_nao_tolera_linha_ruim :
  (carregar_dados (Ok [resposta_bool_ruim; resposta_boa])).1 =
    [ linha 1 "A" None Bom (Some 50%Z); linha 2 "A" (Some Nao) Bom (Some 100%Z) ]
  ∧ carregar_dados (Ok [resposta_data_ruim; resposta_boa]) = ([], [st_error (ErroData "ontem")])
  ∧ ¬ pula_as_invalidas [resposta_bool_ruim; resposta_boa]
  ∧ ¬ pula_as_invalidas [resposta_data_ruim; resposta_boa].
Proof.
  split_and!; [reflexivity|reflexivity| |].
  - intros H. destruct (H resposta_bool_ruim) as [_ H2]; [by left|].
    apply H2; [|by left]. eexists. split; [by left|done].
  - intros H. destruct (H resposta_boa) as [H1 _]; [by right; left|].
    destruct H1 as (l & Hl & _).
    + intros [Hb|[s Hs]]; [by apply (Hb false)|done].
    + by apply elem_of_nil in Hl.
Qed.

(** ** The headline metrics *)

Section Metricas.
Implicit Types (df : DataFrame).

Lemma materialMissing_Sim (l : Linha) :
  Material_Faltando l = Some Sim ↔ materialMissing l = Some true.
Proof.
  unfold materialMissing. destruct (Material_Faltando l) as [s|]; [|naive_solver].
  repeat case_decide; naive_solver.
Qed.

Lemma materialMissing_Nao (l : Linha) :
  Material_Faltando l = Some Nao ↔ materialMissing l = Some false.
Proof.
  unfold materialMissing. destruct (Material_Faltando l) as [s|]; [|naive_solver].
  repeat case_decide; subst; naive_solver.
Qed.

Lemma material_faltando_le df : material_faltando df ≤ total_respostas df.
Proof. apply length_filter. Qed.

Lemma satisfacao_boa_le df : satisfacao_boa df ≤ total_respostas df.
Proof. apply length_filter. Qed.

Lemma truediv_ok (a : Z) (b : nat) :
  0 < b → truediv a (Z.of_nat b) = Ok (fdiv (float_of_int a) (float_of_int (Z.of_nat b))).
Proof.
  intros Hb. unfold truediv. by destruct (Z.eqb_spec (Z.of_nat b) 0); [lia|].
Qed.

End Metricas.

(** ** The daily series *)

Section Serie.
Implicit Types (df : DataFrame) (d : Z).

Lemma elem_of_datas df d :
  d ∈ omap id (coluna_Data df) ↔
  ∃ l, l ∈ df ∧ dt_date <$> Data_Registro l = Some d.
Proof.
  unfold coluna_Data. rewrite list_elem_of_omap. split.
  - intros (o & (l & -> & Hl)%list_elem_of_fmap & Ho). by exists l.
  - intros (l & Hl & Hd). exists (dt_date <$> Data_Registro l).
    split; [|done]. apply list_elem_of_fmap. by exists l.
Qed.


(** The rows without a timestamp are the only ones the series leaves out. *)
Lemma length_datas df :
  length (omap id (coluna_Data df)) =
  length (filter (λ l, is_Some (Data_Registro l)) df).
Proof.
  induction df as [|l df IH]; [done|].
  rewrite filter_cons. cbn [coluna_Data fmap list_fmap omap list_omap].
  unfold coluna_Data in IH.
  destruct (Data_Registro l) as [t|]; cbn.
  - rewrite decide_True by eauto. cbn [length]. f_equal. apply IH.
  - rewrite decide_False by (by intros [? ?]). apply IH.
Qed.

Lemma respostas_diarias_soma df :
  sum_list (respostas_diarias df).*2 =
  length (filter (λ l, is_Some (Data_Registro l)) df).
Proof.
  unfold respostas_diarias. rewrite (groupby_size_soma Z.le). apply length_datas.
Qed.

End Serie.



(** ** The cross-tabulations *)

Section Tabelas.
Implicit Types (df : DataFrame) (pares : list (string * string)).

Lemma crosstab_index_ordenado pares :
  StronglySorted Rotulo.lt (index (crosstab pares)).
Proof.
  eapply StronglySorted_impl; [|apply (chaves_estrito Rotulo.le)].
  intros x y. apply RotuloFacts.strict_le_lt.
Qed.

Lemma crosstab_columns_ordenado pares :
  StronglySorted Rotulo.lt (columns (crosstab pares)).
Proof.
  eapply StronglySorted_impl; [|apply (chaves_estrito Rotulo.le)].
  intros x y. apply RotuloFacts.strict_le_lt.
Qed.

Lemma elem_of_crosstab_index pares r :
  r ∈ index (crosstab pares) ↔ ∃ c, (r, c) ∈ pares.
Proof.
  cbn. rewrite (elem_of_chaves Rotulo.le), list_elem_of_fmap. split.
  - intros ([r' c] & -> & ?). by exists c.
  - intros (c & ?). by exists (r, c).
Qed.

Lemma elem_of_crosstab_columns pares c :
  c ∈ columns (crosstab pares) ↔ ∃ r, (r, c) ∈ pares.
Proof.
  cbn. rewrite (elem_of_chaves Rotulo.le), list_elem_of_fmap. split.
  - intros ([r c'] & -> & ?). by exists r.
  - intros (r & ?). by exists (r, c).
Qed.

(** The keys of a table do not depend on the order of the rows. *)
Lemma crosstab_chaves_Permutation pares1 pares2 :
  pares1 ≡ₚ pares2 →
  index (crosstab pares1) = index (crosstab pares2)
  ∧ columns (crosstab pares1) = columns (crosstab pares2).
Proof.
  intros Hp. split; apply (chaves_Permutation Rotulo.le); by rewrite Hp.
Qed.

Lemma elem_of_pares_setor_material df s m :
  (s, m) ∈ pares_setor_material df ↔
  ∃ l, l ∈ df ∧ Setor l = s ∧ Material_Faltando l = Some m.
Proof.
  unfold pares_setor_material. rewrite list_elem_of_omap. split.
  - intros (l & Hl & Hp). exists l. destruct (Material_Faltando l); naive_solver.
  - intros (l & Hl & <- & Hm). exists l. rewrite Hm. naive_solver.
Qed.

Lemma elem_of_pares_setor_qualidade df s q :
  (s, q) ∈ pares_setor_qualidade df ↔
  ∃ l, l ∈ df ∧ Setor l = s ∧ Qualidade_Servico l = q.
Proof.
  unfold pares_setor_qualidade. rewrite list_elem_of_fmap. naive_solver.
Qed.

End Tabelas.

(** C4, as the code has it.  In both tables the row keys and the column keys
    are strictly ascending in the order of labels, the rating keys too; they
    are the sectors, the texts and the ratings of the rows counted. *)
Theorem crosstab_chaves_ascendentes (df : DataFrame) :
  StronglySorted Rotulo.lt (index (material_setor df))
  ∧ StronglySorted Rotulo.lt (columns (material_setor df))
  ∧ StronglySorted Rotulo.lt (index (qualidade_setor df))
  ∧ StronglySorted Rotulo.lt (columns (qualidade_setor df))
  ∧ (∀ s : string, s ∈ index (material_setor df) ↔
       ∃ l, l ∈ df ∧ Setor l = s ∧ is_Some (Material_Faltando l))
  ∧ (∀ m : string, m ∈ columns (material_setor df) ↔
       ∃ l, l ∈ df ∧ Material_Faltando l = Some m)
  ∧ (∀ s : string, s ∈ index (qualidade_setor df) ↔ ∃ l, l ∈ df ∧ Setor l = s)
  ∧ (∀ q : string, q ∈ columns (qualidade_setor df) ↔
       ∃ l, l ∈ df ∧ Qualidade_Servico l = q).
Proof.
  unfold material_setor, qualidade_setor. split_and!.
  - apply crosstab_index_ordenado.
  - apply crosstab_columns_ordenado.
  - apply crosstab_index_ordenado.
  - apply crosstab_columns_ordenado.
  - intros s. rewrite elem_of_crosstab_index.
    setoid_rewrite elem_of_pares_setor_material. unfold is_Some. naive_solver.
  - intros m. rewrite elem_of_crosstab_columns.
    setoid_rewrite elem_of_pares_setor_material. naive_solver.
  - intros s. rewrite elem_of_crosstab_index.
    setoid_rewrite elem_of_pares_setor_qualidade. naive_solver.
  - intros q. rewrite elem_of_crosstab_columns.
    setoid_rewrite elem_of_pares_setor_qualidade. naive_solver.
Qed.

(** C4, as the claim has it, fails: with sector "B" answered before sector
    "A", and "Muito Bom" before "Bom", the keys come out as "A", "B" and
    "Bom", "Muito Bom": neither in first-seen order nor in rank order. *)
Lemma crosstab_nao_primeira_vista :
  index (qualidade_setor df_BA) = ["A"; "B"]
  ∧ unique (Setor <$> df_BA) = ["B"; "A"]
  ∧ columns (qualidade_setor df_BA) = [Bom; Muito_Bom]
  ∧ ¬ chaves_por_primeira_vista df_BA
  ∧ ¬ colunas_por_rank df_BA.
Proof.
  split_and!; try reflexivity.
  - intros (_ & _ & H). by vm_compute in H.
  - unfold colunas_por_rank.
    change (columns (qualidade_setor df_BA)) with [Bom; Muito_Bom].
    intros H. apply StronglySorted_inv in H as [_ H].
    apply Forall_cons in H as [H _]. vm_compute in H. lia.
Qed.

(** ** The filter *)

Section Filtro.
Implicit Types (df : DataFrame) (l : Linha) (ss qs : list string) (m : string).

Lemma df_filtrado_Todos df ss qs :
  df_filtrado df ss qs Todos = filter (mascara_setor_qualidade ss qs) df.
Proof. unfold df_filtrado. rewrite decide_False; [done|]. by intros H. Qed.

Lemma df_filtrado_nao_Todos df ss qs m :
  m ≠ Todos →
  df_filtrado df ss qs m =
    filter (λ l, Material_Faltando l = Some m) (filter (mascara_setor_qualidade ss qs) df).
Proof. intros Hm. unfold df_filtrado. by rewrite decide_True. Qed.

Lemma df_filtrado_filter df ss qs m :
  df_filtrado df ss qs m = filter (passa ss qs m) df.
Proof.
  destruct (decide (m = Todos)) as [->|Hm].
  - rewrite df_filtrado_Todos. apply list_filter_iff. unfold passa. naive_solver.
  - rewrite df_filtrado_nao_Todos by done. rewrite list_filter_filter.
    apply list_filter_iff. unfold passa. naive_solver.
Qed.

Lemma elem_of_unique {A} `{EqDecision A} (s : list A) (x : A) :
  x ∈ unique s ↔ x ∈ s.
Proof.
  induction s as [|y s IH]; [done|]. cbn [unique].
  rewrite !elem_of_cons, list_elem_of_filter, IH.
  destruct (decide (x = y)); naive_solver.
Qed.

Lemma NoDup_unique {A} `{EqDecision A} (s : list A) : NoDup (unique s).
Proof.
  induction s as [|y s IH]; [constructor|]. cbn [unique].
  apply NoDup_cons. split; [|by apply NoDup_filter].
  rewrite list_elem_of_filter. naive_solver.
Qed.

(** With the selections the page starts with, the table shows every row. *)
Lemma df_filtrado_padrao df :
  df_filtrado df (setores_padrao df) (qualidades_padrao df) Todos = df.
Proof.
  rewrite df_filtrado_Todos.
  assert (∀ k : DataFrame, (∀ l, l ∈ k → l ∈ df) →
               filter (mascara_setor_qualidade (setores_padrao df) (qualidades_padrao df)) k = k)
    as H; [|by apply H].
  induction k as [|l k IH]; [done|]. intros Hk.
  rewrite filter_cons, decide_True.
  - f_equal. apply IH. intros; apply Hk; by right.
  - unfold mascara_setor_qualidade, isin, setores_padrao, qualidades_padrao.
    rewrite !elem_of_unique, !list_elem_of_fmap.
    split; exists l; (split; [done|apply Hk; by left]).
Qed.

Lemma elem_of_df_filtrado df ss qs m l :
  l ∈ df_filtrado df ss qs m ↔
  l ∈ df ∧ Setor l ∈ ss ∧ Qualidade_Servico l ∈ qs ∧
  (m = Todos ∨ Material_Faltando l = Some m).
Proof.
  rewrite df_filtrado_filter, list_elem_of_filter.
  unfold passa, mascara_setor_qualidade, isin. naive_solver.
Qed.

End Filtro.

(** C1.  A row is in the filtered table exactly when it is in the frame, its
    sector is among the selected sectors, its rating is among the selected
    ratings, and the select box either stands on "Todos" or asks for the very
    boolean behind the row's text; with no sector selected, or no rating
    selected, the filtered table is empty. *)
Theorem filtro_inclui_sse (df : DataFrame) (ss qs : list string) (tri : TriEstado) :
  (∀ l : Linha,
     l ∈ df_filtrado df ss qs (opcao tri) ↔
     l ∈ df ∧ Setor l ∈ ss ∧ Qualidade_Servico l ∈ qs ∧
     (tri = Qualquer ∨ ∃ b : bool, pedido tri = Some b ∧ materialMissing l = Some b))
  ∧ df_filtrado df [] qs (opcao tri) = []
  ∧ df_filtrado df ss [] (opcao tri) = [].
Proof.
  split_and!.
  - intros l. rewrite elem_of_df_filtrado.
    destruct tri; simpl.
    + naive_solver.
    + rewrite materialMissing_Sim. split.
      * intros (? & ? & ? & [?|?]); [done|]. eauto 10.
      * intros (? & ? & ? & [?|(b & [= <-] & ?)]); [done|]. eauto 10.
    + rewrite materialMissing_Nao. split.
      * intros (? & ? & ? & [?|?]); [done|]. eauto 10.
      * intros (? & ? & ? & [?|(b & [= <-] & ?)]); [done|]. eauto 10.
  - apply elem_of_nil_inv. intros l. rewrite elem_of_df_filtrado.
    intros (_ & []%elem_of_nil & _).
  - apply elem_of_nil_inv. intros l. rewrite elem_of_df_filtrado.
    intros (_ & _ & []%elem_of_nil & _).
Qed.

(** C8.  The filtered table has at most as many rows as the frame, and
    filtering it again by the same selections changes nothing. *)
Theorem filtro_limitado_idempotente (df : DataFrame) (ss qs : list string) (m : string) :
  length (df_filtrado df ss qs m) ≤ length df
  ∧ df_filtrado (df_filtrado df ss qs m) ss qs m = df_filtrado df ss qs m.
Proof.
  rewrite !df_filtrado_filter. split.
  - apply length_filter.
  - by apply list_filter_filter_l.
Qed.

(** C10.  The filtered table is the frame with some rows left out: the rows
    kept are rows of the frame as they are, in the order of the frame. *)
Theorem filtro_subsequencia (df : DataFrame) (ss qs : list string) (m : string) :
  df_filtrado df ss qs m `sublist_of` df.
Proof. rewrite df_filtrado_filter. apply sublist_filter. Qed.

(** ** The most common rating *)

Section Moda.
Implicit Types (s : list string) (q : string) (df : DataFrame).

Lemma max_list_with_ge {A} (f : A → nat) (l : list A) x :
  x ∈ l → f x ≤ max_list_with f l.
Proof. induction 1; simpl; lia. Qed.

Lemma max_list_with_atingido {A} (f : A → nat) (l : list A) :
  l ≠ [] → ∃ x, x ∈ l ∧ f x = max_list_with f l.
Proof.
  induction l as [|y l IH]; [done|]. intros _. simpl.
  destruct l as [|z l].
  - exists y. split; [by left|]. simpl. lia.
  - destruct IH as (x & Hx & Hfx); [done|].
    destruct (Nat.max_spec (f y) (max_list_with f (z :: l))) as [[? ->]|[? ->]].
    + exists x. split; [by right|done].
    + exists y. split; [by left|done].
Qed.

Lemma elem_of_mode s q :
  q ∈ mode s ↔ q ∈ s ∧ ∀ x, conta x s ≤ conta q s.
Proof.
  unfold mode. rewrite merge_sort_Permutation, list_elem_of_filter, elem_of_remove_dups.
  split.
  - intros [Hq Hin]. split; [done|]. intros x. rewrite Hq.
    destruct (decide (x ∈ s)) as [Hx|Hx].
    + apply (max_list_with_ge (λ v, conta v s)). by apply elem_of_remove_dups.
    + apply conta_pos in Hin. rewrite Hq in Hin.
      destruct (conta x s) eqn:Hc; [lia|].
      destruct Hx. apply conta_pos. lia.
  - intros [Hin Hmax]. split; [|done].
    destruct (max_list_with_atingido (λ v, conta v s) (remove_dups s))
      as (x & Hx & Hfx).
    + intros Hnil. apply elem_of_remove_dups in Hin. rewrite Hnil in Hin.
      by apply elem_of_nil in Hin.
    + apply Nat.le_antisymm.
      * apply (max_list_with_ge (λ v, conta v s)). by apply elem_of_remove_dups.
      * rewrite <- Hfx. apply Hmax.
Qed.

Lemma mode_nao_vazio s : s ≠ [] → mode s ≠ [].
Proof.
  intros Hs Hm.
  destruct (max_list_with_atingido (λ v, conta v s) (remove_dups s))
    as (x & Hx & Hfx).
  - destruct s as [|y s]; [done|]. intros Hnil.
    assert (y ∈ remove_dups (y :: s)) as Hy by (apply elem_of_remove_dups; by left).
    rewrite Hnil in Hy. by apply elem_of_nil in Hy.
  - assert (x ∈ mode s) as Hin.
    { unfold mode. rewrite merge_sort_Permutation, list_elem_of_filter. done. }
    rewrite Hm in Hin. by apply elem_of_nil in Hin.
Qed.

(** The first mode is the least of the modes. *)
Lemma primeiro_mode s q :
  primeiro (mode s) = Ok q → ∀ q', q' ∈ mode s → Rotulo.le q q'.
Proof.
  assert (StronglySorted Rotulo.le (mode s)) as Hs.
  { unfold mode. apply StronglySorted_merge_sort; apply _. }
  destruct (mode s) as [|x m]; [done|]. intros [= ->] q' Hq'.
  apply StronglySorted_inv in Hs as [_ Hall].
  apply elem_of_cons in Hq' as [->|Hq']; [done|].
  rewrite Forall_forall in Hall. by apply Hall.
Qed.

End Moda.

(** C3, as the code has it.  On an empty filtered table the expression of
    line 250 yields the text "N/A" (and the block of line 242 shows no
    statistic at all); on any other it yields, without raising,
    a rating of the table that no rating outnumbers, and among the ratings of
    that same count the least one in the order of labels. *)
Theorem media_qualidade_moda (df : DataFrame) :
  media_qualidade [] = Ok N_A
  ∧ estatisticas [] = Ok None
  ∧ match df with
    | [] => True
    | _ :: _ =>
        ∃ q : string,
          media_qualidade df = Ok q
          ∧ q ∈ Qualidade_Servico <$> df
          ∧ (∀ x, conta x (Qualidade_Servico <$> df) ≤ conta q (Qualidade_Servico <$> df))
          ∧ (∀ q', conta q' (Qualidade_Servico <$> df) = conta q (Qualidade_Servico <$> df) →
                   Rotulo.le q q')
    end.
Proof.
  split; [done|]. split; [done|]. destruct df as [|l df]; [done|].
  set (s := Qualidade_Servico <$> l :: df).
  assert (s ≠ []) as Hs by done.
  unfold media_qualidade. cbn [empty negb]. fold s.
  destruct (primeiro (mode s)) as [q|e] eqn:Hp.
  - assert (q ∈ mode s) as Hq.
    { destruct (mode s); [done|]. injection Hp as ->. by left. }
    pose proof Hq as [Hin Hmax]%elem_of_mode.
    exists q. split_and!; [done..|].
    intros q' Hc. apply (primeiro_mode s q Hp). apply elem_of_mode.
    assert (0 < conta q' s) as Hpos by (rewrite Hc; by apply conta_pos).
    split; [by apply conta_pos|]. intros x. rewrite Hc. apply Hmax.
  - apply mode_nao_vazio in Hs. by destruct (mode s).
Qed.

(** C3, as the claim has it, fails: when "Muito Bom" and "Bom" are each given
    once, the code reports "Bom", whose rank is not the lowest of the two. *)
Lemma media_qualidade_nao_por_rank :
  media_qualidade df_BA = Ok Bom
  ∧ conta Muito_Bom (Qualidade_Servico <$> df_BA) = conta Bom (Qualidade_Servico <$> df_BA)
  ∧ rank Muito_Bom < rank Bom
  ∧ ¬ desempate_por_rank df_BA.
Proof.
  split_and!; [reflexivity|reflexivity|vm_compute; lia|].
  intros H. specialize (H Bom Muito_Bom eq_refl).
  assert (rank Bom ≤ rank Muito_Bom) as Hr; [|vm_compute in Hr; lia].
  apply H. intros x. change (Qualidade_Servico <$> df_BA) with [Muito_Bom; Bom].
  rewrite !conta_cons. unfold conta. cbn. repeat case_decide; subst; simpl; try lia.
  all: try done.
Qed.

(** ** The scenarios of the specification, evaluated *)

(** Ten records, three with material missing, six rated in the top two
    levels. *)
Example cenario_dez_respostas :
  total_respostas df_dez = 10
  ∧ material_faltando df_dez = 3
  ∧ satisfacao_boa df_dez = 6
  ∧ percentual_falta df_dez = Ok (float_of_int 30)
  ∧ percentual_satisfacao df_dez = Ok (float_of_int 60)
  ∧ respostas_diarias df_dez = [(0%Z, 3); (1%Z, 3); (2%Z, 4)]
  ∧ material_setor df_dez =
      {| index := ["A"; "B"; "C"; "D"];
         columns := [Nao; Sim];
         values := [[0; 2]; [2; 1]; [3; 0]; [2; 0]] |}.
Proof. split_and!; reflexivity. Qed.

(** Binary64 rounds: seven rows of twenty-five with material missing show
    as 28.000000000000004, the float next above 28. *)
Example cenario_sete_de_vinte_e_cinco :
  fmul (fdiv (float_of_int 7) (float_of_int 25)) (float_of_int 100)
    = S754_finite false 7881299347898369 (-48)
  ∧ float_of_int 28 = S754_finite false 7881299347898368 (-48).
Proof. split; reflexivity. Qed.

(** No record at all. *)
Example cenario_sem_respostas :
  carregar_dados (Ok []) = ([], [])
  ∧ total_respostas [] = 0
  ∧ percentual_falta [] = Ok (float_of_int 0)
  ∧ respostas_diarias [] = []
  ∧ index (qualidade_setor []) = [] ∧ columns (qualidade_setor []) = [].
Proof. by split_and!. Qed.

(** One sector selected, every rating, only the rows with material missing. *)
Example cenario_filtro_setor :
  df_filtrado df_dez ["B"] (qualidades_padrao df_dez) (opcao SoFaltando)
  = [ linha 3 "B" (Some Sim) Muito_Bom (Some 300%Z) ].
Proof. reflexivity. Qed.

(** A second call within the lifetime asks the store nothing; a call after
    it asks again. *)
Example cenario_cache :
  carregar_dados_cache 100 (Erro (ErroConsulta "fora do ar")) (Some (0%Z, (df_um, [])))
    = (df_um, [], Some (0%Z, (df_um, [])))
  ∧ carregar_dados_cache 301 (Ok [resposta_boa]) (Some (0%Z, (df_um, [])))
    = ([linha 2 "A" (Some Nao) Bom (Some 100%Z)], [],
       Some (301%Z, ([linha 2 "A" (Some Nao) Bom (Some 100%Z)], []))).
Proof. by split. Qed.

(** * Further properties of the code *)

(** ** Loading and the cache *)

Section CargaMais.
Implicit Types (rs : list Resposta) (q : resultado (list Resposta)) (c : Cache).

Lemma carregar_dados_legivel rs :
  forallb (λ r, negb (ilegivel (r_data_registro r))) rs = true →
  carregar_dados (Ok rs) =
    ((λ r, linha_de r (instante_de (r_data_registro r))) <$> rs, []).
Proof.
  intros Hrs. destruct rs as [|r rs]; [done|].
  rewrite carregar_dados_cons, to_datetime_legivel.
  - by rewrite zip_with_linha_de.
  - by rewrite forallb_fmap.
Qed.

Lemma carregar_dados_ilegivel rs :
  forallb (λ r, negb (ilegivel (r_data_registro r))) rs = false →
  ∃ s, DataIlegivel s ∈ r_data_registro <$> rs
       ∧ carregar_dados (Ok rs) = ([], [st_error (ErroData s)]).
Proof.
  intros Hrs.
  destruct (to_datetime_ilegivel (r_data_registro <$> rs)) as (s & Hs & Hdt).
  - by rewrite forallb_fmap.
  - exists s. split; [done|]. destruct rs as [|r rs]; [done|].
    by rewrite carregar_dados_cons, Hdt.
Qed.

Lemma forallb_legivel rs :
  forallb (λ r, negb (ilegivel (r_data_registro r))) rs = true ↔
  ∀ s, DataIlegivel s ∉ r_data_registro <$> rs.
Proof.
  induction rs as [|r rs IH]; cbn.
  - split; [|done]. intros _ s Hs. by apply elem_of_nil in Hs.
  - rewrite andb_true_iff, IH. setoid_rewrite not_elem_of_cons.
    destruct (r_data_registro r); cbn; naive_solver.
Qed.

Lemma materialMissing_linha_de (r : Resposta) (t : option Z) (b : bool) :
  materialMissing (linha_de r t) = Some b ↔ r_material_faltando r = PyBool b.
Proof.
  unfold materialMissing. cbn.
  destruct (r_material_faltando r) as [|[]|]; cbn; destruct b; naive_solver.
Qed.

End CargaMais.

(** X1.  The load returns an empty frame in three cases and no other: the
    query raised, the store holds no answer, or some timestamp cell cannot
    be read; and it writes an error to the page in the first and the last of
    them only. *)
Theorem carga_vazia_sse (q : resultado (list Resposta)) :
  ((carregar_dados q).1 = [] ↔
     (∃ e, q = Erro e) ∨ q = Ok []
     ∨ (∃ rs s, q = Ok rs ∧ DataIlegivel s ∈ r_data_registro <$> rs))
  ∧ ((carregar_dados q).2 ≠ [] ↔
     (∃ e, q = Erro e)
     ∨ (∃ rs s, q = Ok rs ∧ DataIlegivel s ∈ r_data_registro <$> rs)).
Proof.
  destruct q as [rs|e]; [|split; split; eauto; done].
  destruct (forallb (λ r, negb (ilegivel (r_data_registro r))) rs) eqn:Hrs.
  - rewrite carregar_dados_legivel by done.
    pose proof (proj1 (forallb_legivel rs) Hrs) as Hleg. clear Hrs. rename Hleg into Hrs.
    split; split; cbn.
    + intros H. apply fmap_nil_inv in H as ->. eauto.
    + intros [(e & [=])|[[= ->]|(rs' & s & [= <-] & Hs)]]; [done|]. by apply Hrs in Hs.
    + done.
    + intros [(e & [=])|(rs' & s & [= <-] & Hs)]. by apply Hrs in Hs.
  - destruct (carregar_dados_ilegivel rs Hrs) as (s & Hs & ->).
    split; split; cbn; eauto 10.
Qed.

(** X2.  When every timestamp cell can be read, the frame has one row for
    each stored tuple, at the same position, with the same id, sector,
    rating and instant; the row's text decodes to a boolean exactly when the
    tuple held that boolean. *)
Theorem carga_linha_por_tupla (rs : list Resposta) (i : nat) (r : Resposta)
    (Hrs : forallb (λ r, negb (ilegivel (r_data_registro r))) rs = true)
    (Hi : rs !! i = Some r) :
  length (carregar_dados (Ok rs)).1 = length rs
  ∧ ∃ l : Linha,
      (carregar_dados (Ok rs)).1 !! i = Some l
      ∧ ID l = r_id r ∧ Setor l = r_setor r
      ∧ Qualidade_Servico l = r_qualidade_servico r
      ∧ Qual_Material l = r_qual_material r ∧ Mensagem l = r_mensagem r
      ∧ Data_Registro l = instante_de (r_data_registro r)
      ∧ ∀ b : bool, materialMissing l = Some b ↔ r_material_faltando r = PyBool b.
Proof.
  rewrite carregar_dados_legivel by done. cbn [fst]. split; [by rewrite length_fmap|].
  exists (linha_de r (instante_de (r_data_registro r))).
  split; [by rewrite list_lookup_fmap, Hi|].
  split_and!; try done. intros b. apply materialMissing_linha_de.
Qed.

Lemma carga_linha_por_tupla_witness :
  ∃ l : Linha,
    (carregar_dados (Ok [resposta_bool_ruim; resposta_boa])).1 !! 1 = Some l
    ∧ ID l = 2%Z ∧ materialMissing l = Some false.
Proof.
  destruct (carga_linha_por_tupla [resposta_bool_ruim; resposta_boa] 1 resposta_boa
              eq_refl eq_refl) as (_ & l & Hl & Hid & _ & _ & _ & _ & _ & Hb).
  exists l. split; [done|]. split; [done|]. by apply Hb.
Defined.

(** X3.  After a call that had to run the load at time [t1], any call made
    before [t1 + 300] returns the very frame of that call, shows again what
    that call wrote to the page, and leaves the cache as it is, whatever the
    store would answer by then. *)
Theorem cache_serve_o_mesmo (t1 t2 : Z) (q1 q2 : resultado (list Resposta)) (c : Cache)
    (Hmiss : fresco t1 c = None) (Ht : (t2 < t1 + ttl)%Z) :
  carregar_dados_cache t2 q2 (carregar_dados_cache t1 q1 c).2 =
    carregar_dados_cache t1 q1 c
  ∧ carregar_dados_cache t1 q1 c =
      ((carregar_dados q1).1, (carregar_dados q1).2, Some (t1, carregar_dados q1)).
Proof.
  unfold carregar_dados_cache at 2 3 4. rewrite Hmiss.
  destruct (carregar_dados q1) as [df ev]. cbn [fst snd]. split; [|done].
  unfold carregar_dados_cache, fresco.
  by destruct (Z.ltb_spec t2 (t1 + ttl)); [|lia].
Qed.

Lemma cache_serve_o_mesmo_witness :
  carregar_dados_cache 299 (Ok []) (carregar_dados_cache 0 (Ok [resposta_boa]) None).2
  = carregar_dados_cache 0 (Ok [resposta_boa]) None.
Proof.
  apply (cache_serve_o_mesmo 0 299 (Ok [resposta_boa]) (Ok []) None); [reflexivity|].
  unfold ttl. lia.
Defined.

(** X4.  A failed load is remembered like any other: until 300 seconds have
    passed since it, a call returns the empty frame and shows the same error
    again, without asking the store, even if the store would now hand over
    its answers. *)
Theorem cache_guarda_a_falha (t1 t2 : Z) (e : excecao) (rs : list Resposta) (c : Cache)
    (Hmiss : fresco t1 c = None) (Ht : (t2 < t1 + ttl)%Z) :
  carregar_dados_cache t2 (Ok rs) (carregar_dados_cache t1 (Erro e) c).2 =
    ([], [st_error e], Some (t1, ([], [st_error e]))).
Proof.
  unfold carregar_dados_cache at 2. rewrite Hmiss. cbn.
  unfold carregar_dados_cache, fresco.
  by destruct (Z.ltb_spec t2 (t1 + ttl)); [|lia].
Qed.

Lemma cache_guarda_a_falha_witness :
  carregar_dados_cache 100 (Ok [resposta_boa])
    (carregar_dados_cache 0 (Erro (ErroConsulta "fora do ar")) None).2
  = ([], [st_error (ErroConsulta "fora do ar")],
     Some (0%Z, ([], [st_error (ErroConsulta "fora do ar")]))).
Proof.
  apply (cache_guarda_a_falha 0 100 (ErroConsulta "fora do ar") [resposta_boa] None);
    [reflexivity|]. unfold ttl. lia.
Defined.

(** ** The latest answer and the percentages *)

Section MetricasMais.
Implicit Types (df : DataFrame) (t u : Z).

Lemma foldr_max_ge t (ts : list Z) : (t ≤ foldr Z.max t ts)%Z.
Proof. induction ts as [|x ts IH]; cbn; lia. Qed.

Lemma foldr_max_elem t (ts : list Z) x : x ∈ ts → (x ≤ foldr Z.max t ts)%Z.
Proof. induction 1; cbn; lia. Qed.

Lemma foldr_max_atingido t (ts : list Z) : foldr Z.max t ts ∈ t :: ts.
Proof.
  induction ts as [|x ts IH]; cbn [foldr]; [by left|].
  destruct (Z.max_spec x (foldr Z.max t ts)) as [[_ ->]|[_ ->]].
  - apply elem_of_cons in IH as [->|?]; [by left|by right; right].
  - by right; left.
Qed.

Lemma elem_of_instantes df t :
  t ∈ omap Data_Registro df ↔ ∃ l, l ∈ df ∧ Data_Registro l = Some t.
Proof. apply list_elem_of_omap. Qed.

End MetricasMais.

Lemma ultima_resposta_maximo_aux (df : DataFrame) :
  match ultima_resposta df with
  | Some u =>
      (∃ l, l ∈ df ∧ Data_Registro l = Some u)
      ∧ ∀ l t, l ∈ df → Data_Registro l = Some t → (t ≤ u)%Z
  | None => ∀ l, l ∈ df → Data_Registro l = None
  end.
Proof.
  unfold ultima_resposta.
  destruct (omap Data_Registro df) as [|t ts] eqn:Hts.
  - intros l Hl. destruct (Data_Registro l) as [t|] eqn:Ht; [|done].
    assert (t ∈ omap Data_Registro df) as Hin by (apply elem_of_instantes; eauto).
    rewrite Hts in Hin. by apply elem_of_nil in Hin.
  - split.
    + apply elem_of_instantes. rewrite Hts. apply foldr_max_atingido.
    + intros l x Hl Hx.
      assert (x ∈ omap Data_Registro df) as Hin by (apply elem_of_instantes; eauto).
      rewrite Hts in Hin. apply elem_of_cons in Hin as [->|Hin].
      * apply foldr_max_ge.
      * by apply foldr_max_elem.
Qed.

(** X6.  [ultima_resposta] is the instant of some row and no row has a later
    one; it is null exactly when no row has an instant. *)
Theorem ultima_resposta_maximo (df : DataFrame) :
  match ultima_resposta df with
  | Some u =>
      (∃ l, l ∈ df ∧ Data_Registro l = Some u)
      ∧ ∀ l t, l ∈ df → Data_Registro l = Some t → (t ≤ u)%Z
  | None => ∀ l, l ∈ df → Data_Registro l = None
  end.
Proof. apply ultima_resposta_maximo_aux. Qed.

(** X7.  When some row has an instant, "Há [d] dias" shows the whole days
    between the latest instant and now, rounded down: [d] is 0 within the
    first day, not negative if no answer lies in the future, and negative
    if the latest one does. *)
Theorem dias_atras_dias_inteiros (agora d : Z) (df : DataFrame)
    (Hd : dias_atras agora df = Some d) :
  ∃ u : Z, ultima_resposta df = Some u
    ∧ (86400 * d ≤ agora - u < 86400 * (d + 1))%Z
    ∧ ((u ≤ agora)%Z ↔ (0 ≤ d)%Z)
    ∧ ((u ≤ agora < u + 86400)%Z ↔ d = 0%Z).
Proof.
  unfold dias_atras in Hd. destruct (ultima_resposta df) as [u|]; [|done].
  injection Hd as <-. exists u. split; [done|].
  pose proof (Z.div_mod (agora - u) 86400 ltac:(lia)) as Hdm.
  pose proof (Z.mod_pos_bound (agora - u) 86400 ltac:(lia)) as Hm.
  split_and!; [lia|lia| |split; lia].
  split; [|lia]. intros H. apply Z.div_pos; lia.
Qed.

Lemma dias_atras_dias_inteiros_witness :
  ∃ u : Z, ultima_resposta df_dez = Some u
    ∧ (86400 * 1 ≤ 300000 - u < 86400 * (1 + 1))%Z
    ∧ ((u ≤ 300000)%Z ↔ (0 ≤ 1)%Z)
    ∧ ((u ≤ 300000 < u + 86400)%Z ↔ 1%Z = 0%Z).
Proof. apply (dias_atras_dias_inteiros 300000 1 df_dez). reflexivity. Defined.

(** X29.  Neither percentage ever raises: on the empty frame each is the
    float 0, and on any other frame each is the binary64 quotient of its
    count by the number of rows, then the binary64 product by 100.  The
    first count is the number of rows whose boolean is true, the second the
    number of rows rated "Muito Bom" or "Bom". *)
Theorem percentuais_sem_erro (df : DataFrame) :
  (percentual_falta df =
     Ok match df with
        | [] => float_of_int 0
        | _ :: _ => fmul (fdiv (float_of_int (Z.of_nat (material_faltando df)))
                               (float_of_int (Z.of_nat (length df))))
                         (float_of_int 100)
        end
   ∧ material_faltando df = length (filter (λ l, materialMissing l = Some true) df))
  ∧ (percentual_satisfacao df =
       Ok match df with
          | [] => float_of_int 0
          | _ :: _ => fmul (fdiv (float_of_int (Z.of_nat (satisfacao_boa df)))
                                 (float_of_int (Z.of_nat (length df))))
                           (float_of_int 100)
          end
     ∧ satisfacao_boa df =
         length (filter (λ l, Qualidade_Servico l = Muito_Bom
                              ∨ Qualidade_Servico l = Bom) df)).
Proof.
  split; split.
  - destruct df as [|l df]; [done|]. unfold percentual_falta, total_respostas.
    cbn [length Nat.ltb Nat.leb]. by rewrite truediv_ok by lia.
  - unfold material_faltando. f_equal. apply list_filter_iff.
    intros l. apply materialMissing_Sim.
  - destruct df as [|l df]; [done|]. unfold percentual_satisfacao, total_respostas.
    cbn [length Nat.ltb Nat.leb]. by rewrite truediv_ok by lia.
  - unfold satisfacao_boa. f_equal. apply list_filter_iff.
    intros l. unfold isin. rewrite !elem_of_cons, elem_of_nil. naive_solver.
Qed.

(** ** The counts behind the charts *)

Section Contagens.
Context {A : Type} `{EqDecision A}.
Implicit Types (s : list A) (v : A) (n : nat).

#[local] Instance antes_trans : Transitive (@antes A).
Proof. intros a b c. unfold antes. lia. Qed.

#[local] Instance antes_total : Total (@antes A).
Proof. intros a b. unfold antes. lia. Qed.

Lemma elem_of_value_counts s v n :
  (v, n) ∈ value_counts s ↔ v ∈ s ∧ n = conta v s.
Proof.
  unfold value_counts. rewrite merge_sort_Permutation, list_elem_of_fmap. split.
  - intros (v' & [= -> ->] & Hv). by rewrite elem_of_unique in Hv.
  - intros [Hv ->]. exists v. by rewrite elem_of_unique.
Qed.

Lemma value_counts_valores s : (value_counts s).*1 ≡ₚ unique s.
Proof.
  unfold value_counts. rewrite merge_sort_Permutation, <- list_fmap_compose.
  by rewrite list_fmap_id.
Qed.

Lemma value_counts_ordenado s : StronglySorted antes (value_counts s).
Proof. apply StronglySorted_merge_sort; apply _. Qed.

Lemma value_counts_soma s : sum_list (value_counts s).*2 = length s.
Proof.
  unfold value_counts. rewrite merge_sort_Permutation, <- list_fmap_compose.
  rewrite <- (soma_conta (unique s) s).
  - generalize (unique s). intros ks.
    induction ks as [|k ks IHk]; [done|]. cbn. by rewrite IHk.
  - apply NoDup_unique.
  - intros x. by rewrite elem_of_unique.
Qed.

Lemma value_counts_nil s : value_counts s = [] ↔ s = [].
Proof.
  split; [|by intros ->].
  intros Hnil. destruct s as [|x s]; [done|].
  assert ((x, conta x (x :: s)) ∈ value_counts (x :: s)) as Hin.
  { apply elem_of_value_counts. split; [by left|done]. }
  rewrite Hnil in Hin. by apply elem_of_nil in Hin.
Qed.

End Contagens.

Section Graficos.
Implicit Types (df : DataFrame).

Lemma conta_fmap {B} `{EqDecision B} (f : Linha → B) df (v : B) :
  conta v (f <$> df) = length (filter (λ l, f l = v) df).
Proof.
  unfold conta. induction df as [|l df IH]; [done|].
  cbn [fmap list_fmap]. rewrite !filter_cons.
  destruct (decide (f l = v)); cbn [length]; by rewrite IH.
Qed.

(** [value_counts] on one column of the frame. *)
Lemma value_counts_coluna (f : Linha → string) df :
  NoDup (value_counts (f <$> df)).*1
  ∧ (∀ v n, (v, n) ∈ value_counts (f <$> df) ↔
            0 < n ∧ n = length (filter (λ l, f l = v) df))
  ∧ StronglySorted antes (value_counts (f <$> df))
  ∧ sum_list (value_counts (f <$> df)).*2 = length df.
Proof.
  split_and!.
  - rewrite value_counts_valores. apply NoDup_unique.
  - intros v n. rewrite elem_of_value_counts, conta_pos, conta_fmap. naive_solver.
  - apply value_counts_ordenado.
  - by rewrite value_counts_soma, length_fmap.
Qed.

Lemma conta_omap_material df (m : string) :
  conta m (omap Qual_Material (filter (λ l, Material_Faltando l = Some Sim) df)) =
  length (filter (λ l, Material_Faltando l = Some Sim ∧ Qual_Material l = Some m) df).
Proof.
  unfold conta. induction df as [|l df IH]; [done|].
  rewrite !filter_cons.
  destruct (decide (Material_Faltando l = Some Sim)) as [Hs|Hs].
  - cbn [omap list_omap]. destruct (Qual_Material l) as [x|] eqn:Hx.
    + cbn [id]. rewrite filter_cons. destruct (decide (x = m)) as [->|Hne].
      * rewrite decide_True by done. cbn [length]. by rewrite IH.
      * rewrite decide_False by naive_solver. done.
    + rewrite decide_False by naive_solver. done.
  - rewrite decide_False by naive_solver. done.
Qed.

Lemma length_omap_le {B C} (f : B → option C) (l : list B) :
  length (omap f l) ≤ length l.
Proof. induction l as [|x l IH]; [done|]. cbn. destruct (f x); cbn; lia. Qed.

End Graficos.

(** X10.  The counts behind the two charts of lines 97 and 109 list each
    sector, and each rating, of the frame once, with the number of its rows,
    never 0, the larger numbers first; the numbers add up to the number of
    rows. *)
Theorem contagens_dos_graficos (df : DataFrame) :
  (NoDup (setor_counts df).*1
   ∧ (∀ s n, (s, n) ∈ setor_counts df ↔
             0 < n ∧ n = length (filter (λ l, Setor l = s) df))
   ∧ StronglySorted (λ a b, b.2 ≤ a.2) (setor_counts df)
   ∧ sum_list (setor_counts df).*2 = length df)
  ∧ (NoDup (qualidade_counts df).*1
     ∧ (∀ q n, (q, n) ∈ qualidade_counts df ↔
               0 < n ∧ n = length (filter (λ l, Qualidade_Servico l = q) df))
     ∧ StronglySorted (λ a b, b.2 ≤ a.2) (qualidade_counts df)
     ∧ sum_list (qualidade_counts df).*2 = length df).
Proof.
  split; [apply (value_counts_coluna Setor)|apply (value_counts_coluna Qualidade_Servico)].
Qed.

(** X11.  The first bar of the rating chart is as tall as the count of the
    rating that line 250 would report for the whole frame, and no bar is
    taller; the chart has no bar only for the empty frame. *)
Theorem primeira_barra_moda (df : DataFrame) :
  match qualidade_counts df with
  | [] => df = []
  | (q0, n) :: _ =>
      ∃ q : string, media_qualidade df = Ok q
        ∧ n = conta q (Qualidade_Servico <$> df)
        ∧ ∀ x, conta x (Qualidade_Servico <$> df) ≤ n
  end.
Proof.
  unfold qualidade_counts.
  pose proof (value_counts_ordenado (Qualidade_Servico <$> df)) as Hs.
  pose proof (elem_of_value_counts (Qualidade_Servico <$> df)) as Hin.
  destruct (value_counts (Qualidade_Servico <$> df)) as [|[q0 n] vc] eqn:Hvc.
  - apply (proj1 (value_counts_nil _)) in Hvc. by apply fmap_nil_inv in Hvc.
  - destruct df as [|l df]; [done|].
    set (s := Qualidade_Servico <$> l :: df) in *.
    assert (q0 ∈ s ∧ n = conta q0 s) as [Hq0 ->] by (apply Hin; by left).
    assert (∀ x, conta x s ≤ conta q0 s) as Hmax.
    { intros x. destruct (decide (x ∈ s)) as [Hx|Hx].
      - assert ((x, conta x s) ∈ (q0, conta q0 s) :: vc) as Hxin by by apply Hin.
        apply StronglySorted_inv in Hs as [_ Hall]. rewrite Forall_forall in Hall.
        apply elem_of_cons in Hxin as [[= -> ?]|Hxin]; [done|].
        apply (Hall _ Hxin).
      - destruct (conta x s) eqn:Hc; [lia|].
        destruct Hx. apply conta_pos. lia. }
    unfold media_qualidade. cbn [empty negb]. fold s.
    pose proof (mode_nao_vazio s ltac:(done)) as Hne.
    destruct (mode s) as [|q m] eqn:Hm; [done|]. exists q. split; [done|].
    assert (q ∈ mode s) as [Hq Hqmax]%elem_of_mode by (rewrite Hm; by left).
    split; [|done]. apply Nat.le_antisymm; [apply Hqmax|apply Hmax].
Qed.

(** X12.  The chart of the materials in short supply is drawn exactly when
    some row with the text "Sim" names a material; each material named in
    such rows has one bar, with the number of those rows, and the bars
    together do not exceed the "Material Faltando" metric. *)
Theorem tipos_de_material (df : DataFrame) :
  (mostra_tipos df = true ↔
     ∃ l, l ∈ df ∧ Material_Faltando l = Some Sim ∧ is_Some (Qual_Material l))
  ∧ (∀ m n, (m, n) ∈ material_falta df ↔
       0 < n ∧ n = length (filter (λ l, Material_Faltando l = Some Sim
                                        ∧ Qual_Material l = Some m) df))
  ∧ NoDup (material_falta df).*1
  ∧ sum_list (material_falta df).*2 ≤ material_faltando df.
Proof.
  unfold mostra_tipos, material_falta.
  set (s := omap Qual_Material (filter (λ l, Material_Faltando l = Some Sim) df)).
  assert (∀ m, m ∈ s ↔ ∃ l, l ∈ df ∧ Material_Faltando l = Some Sim
                           ∧ Qual_Material l = Some m) as Hs.
  { intros m. unfold s. rewrite list_elem_of_omap.
    setoid_rewrite list_elem_of_filter. naive_solver. }
  split_and!.
  - destruct (value_counts s) as [|p vc] eqn:Hvc.
    + apply (proj1 (value_counts_nil _)) in Hvc. split; [done|].
      intros (l & Hl & Hsim & [m Hm]).
      assert (m ∈ s) as Hin by (apply Hs; eauto). rewrite Hvc in Hin.
      by apply elem_of_nil in Hin.
    + split; [|done]. intros _. destruct s as [|m s'] eqn:Es; [done|].
      destruct (proj1 (Hs m)) as (l & ? & ? & Hm); [by left|].
      exists l. rewrite Hm. eauto.
  - intros m n. rewrite elem_of_value_counts, conta_pos.
    unfold s. rewrite !conta_omap_material. split; intros [? ->]; done.
  - rewrite value_counts_valores. apply NoDup_unique.
  - rewrite value_counts_soma. unfold s, material_faltando. apply length_omap_le.
Qed.

(** ** The cells of the cross-tabulations *)

Section Celulas.
Implicit Types (pares : list (string * string)) (r c : string) (df : DataFrame).

Lemma sum_list_with_soma {B} (f g : B → nat) (ks : list B) :
  sum_list_with (λ k, f k + g k) ks = sum_list_with f ks + sum_list_with g ks.
Proof. induction ks as [|k ks IH]; [done|]. cbn. rewrite IH. lia. Qed.

Lemma sum_list_with_zero {B} (f : B → nat) (ks : list B) :
  (∀ k, k ∈ ks → f k = 0) → sum_list_with f ks = 0.
Proof.
  induction ks as [|k ks IH]; [done|]. intros H. cbn.
  rewrite (H k) by (by left). rewrite IH; [done|]. intros; apply H; by right.
Qed.

Lemma sum_list_fmap_with {B} (f : B → nat) (ks : list B) :
  sum_list (f <$> ks) = sum_list_with f ks.
Proof. induction ks as [|k ks IH]; [done|]. cbn. by rewrite IH. Qed.

(** A row of cells adds up to the rows of its key. *)
Lemma soma_da_linha pares r (cols : list string) :
  NoDup cols → (∀ p, p ∈ pares → p.2 ∈ cols) →
  sum_list_with (λ c, conta (r, c) pares) cols = conta r pares.*1.
Proof.
  intros Hnd. induction pares as [|[r' c'] pares IH]; intros Hin.
  - apply sum_list_with_zero. done.
  - cbn [fmap list_fmap fst]. rewrite conta_cons, <- IH by (intros; apply Hin; by right).
    assert (sum_list_with (λ c, conta (r, c) ((r', c') :: pares)) cols =
            sum_list_with (λ c, if decide ((r', c') = (r, c)) then 1 else 0) cols
            + sum_list_with (λ c, conta (r, c) pares) cols) as ->.
    { clear. induction cols as [|c cols IHc]; [done|]. simpl.
      rewrite conta_cons. lia. }
    f_equal. destruct (decide (r' = r)) as [->|Hne].
    + trans (sum_list_with (λ k, if decide (c' = k) then 1 else 0) cols).
      * clear. induction cols as [|c cols IHc]; [done|]. simpl. rewrite IHc.
        f_equal. repeat case_decide; naive_solver.
      * apply soma_indicador; [done|]. apply (Hin (r, c')). by left.
    + apply sum_list_with_zero. intros c _. rewrite decide_False; naive_solver.
Qed.

Lemma crosstab_forma pares :
  length (values (crosstab pares)) = length (index (crosstab pares))
  ∧ Forall (λ linha, length linha = length (columns (crosstab pares)))
           (values (crosstab pares)).
Proof.
  cbn. split; [by rewrite length_fmap|].
  apply Forall_fmap, Forall_forall. intros r _. cbn. by rewrite length_fmap.
Qed.

Lemma crosstab_celula pares (i j : nat) r c :
  index (crosstab pares) !! i = Some r →
  columns (crosstab pares) !! j = Some c →
  values (crosstab pares) !! i ≫= (.!! j) = Some (conta (r, c) pares).
Proof.
  cbn. intros Hi Hj. rewrite list_lookup_fmap, Hi. cbn.
  by rewrite list_lookup_fmap, Hj.
Qed.

Lemma crosstab_soma_linha pares (i : nat) r :
  index (crosstab pares) !! i = Some r →
  ∃ linha, values (crosstab pares) !! i = Some linha
           ∧ sum_list linha = conta r pares.*1 ∧ 0 < sum_list linha.
Proof.
  intros Hi. assert (r ∈ pares.*1) as Hin.
  { apply (elem_of_chaves Rotulo.le). by apply list_elem_of_lookup_2 in Hi. }
  cbn in *. rewrite list_lookup_fmap, Hi. cbn. eexists. split; [done|].
  rewrite sum_list_fmap_with, soma_da_linha.
  - split; [done|]. by apply conta_pos.
  - apply (NoDup_chaves Rotulo.le).
  - intros p Hp. apply (elem_of_chaves Rotulo.le), list_elem_of_fmap. eauto.
Qed.

Lemma crosstab_soma_total pares :
  sum_list (sum_list <$> values (crosstab pares)) = length pares.
Proof.
  cbn. rewrite <- list_fmap_compose, sum_list_fmap_with.
  rewrite <- (length_fmap fst pares).
  rewrite <- (soma_conta (chaves Rotulo.le pares.*1) pares.*1).
  - generalize (chaves Rotulo.le pares.*1). intros idx.
    induction idx as [|r idx IH]; [done|]. cbn. rewrite IH. f_equal.
    rewrite sum_list_fmap_with. apply soma_da_linha.
    + apply (NoDup_chaves Rotulo.le).
    + intros p Hp. apply (elem_of_chaves Rotulo.le), list_elem_of_fmap. eauto.
  - apply (NoDup_chaves Rotulo.le).
  - intros x. by rewrite (elem_of_chaves Rotulo.le).
Qed.

Lemma conta_Permutation {B} `{EqDecision B} (v : B) (s1 s2 : list B) :
  s1 ≡ₚ s2 → conta v s1 = conta v s2.
Proof. intros Hp. unfold conta. by rewrite Hp. Qed.

Lemma crosstab_Permutation pares1 pares2 :
  pares1 ≡ₚ pares2 → crosstab pares1 = crosstab pares2.
Proof.
  intros Hp. unfold crosstab.
  rewrite (chaves_Permutation Rotulo.le pares1.*1 pares2.*1) by (by rewrite Hp).
  rewrite (chaves_Permutation Rotulo.le pares1.*2 pares2.*2) by (by rewrite Hp).
  f_equal. apply list_fmap_ext. intros _ r _. apply list_fmap_ext. intros _ c _.
  by apply conta_Permutation.
Qed.

Lemma conta_pares_setor_qualidade df r c :
  conta (r, c) (pares_setor_qualidade df) =
  length (filter (λ l, Setor l = r ∧ Qualidade_Servico l = c) df).
Proof.
  unfold pares_setor_qualidade. rewrite conta_fmap.
  f_equal. apply list_filter_iff. naive_solver.
Qed.

Lemma conta_pares_setor_material df r c :
  conta (r, c) (pares_setor_material df) =
  length (filter (λ l, Setor l = r ∧ Material_Faltando l = Some c) df).
Proof.
  unfold conta, pares_setor_material. induction df as [|l df IH]; [done|].
  rewrite filter_cons. cbn [omap list_omap].
  destruct (Material_Faltando l) as [m|]; cbn.
  - destruct (decide ((Setor l, m) = (r, c))) as [[= <- <-]|Hne].
    + rewrite decide_True by done. cbn [length]. f_equal. apply IH.
    + rewrite decide_False by naive_solver. apply IH.
  - rewrite decide_False by naive_solver. apply IH.
Qed.

End Celulas.

(** X13.  Both tables are rectangular, one row of cells for each row key and
    in it one cell for each column key, and their cells add up to the number
    of rows counted: every row of the frame for the sector by rating table,
    the rows that have a text for the sector by material table. *)
Theorem tabelas_somam_as_linhas (df : DataFrame) :
  (length (values (qualidade_setor df)) = length (index (qualidade_setor df))
   ∧ Forall (λ linha, length linha = length (columns (qualidade_setor df)))
            (values (qualidade_setor df))
   ∧ sum_list (sum_list <$> values (qualidade_setor df)) = length df)
  ∧ (length (values (material_setor df)) = length (index (material_setor df))
     ∧ Forall (λ linha, length linha = length (columns (material_setor df)))
              (values (material_setor df))
     ∧ sum_list (sum_list <$> values (material_setor df)) =
         length (filter (λ l, is_Some (Material_Faltando l)) df)).
Proof.
  unfold qualidade_setor, material_setor. split; split_and!.
  - apply crosstab_forma.
  - apply crosstab_forma.
  - rewrite crosstab_soma_total. unfold pares_setor_qualidade. by rewrite length_fmap.
  - apply crosstab_forma.
  - apply crosstab_forma.
  - rewrite crosstab_soma_total. unfold pares_setor_material.
    induction df as [|l df IH]; [done|]. rewrite filter_cons. cbn [omap list_omap].
    destruct (Material_Faltando l) as [m|]; cbn.
    + rewrite decide_True by eauto. cbn [length]. by rewrite IH.
    + rewrite decide_False by (by intros [? ?]). apply IH.
Qed.

(** X14.  The cell at row key [r] and column key [c] holds the number of
    rows of the frame with that sector and that rating, or with that sector
    and that text. *)
Theorem tabelas_celulas (df : DataFrame) :
  (∀ (i j : nat) (r c : string),
     index (qualidade_setor df) !! i = Some r →
     columns (qualidade_setor df) !! j = Some c →
     values (qualidade_setor df) !! i ≫= (.!! j) =
       Some (length (filter (λ l, Setor l = r ∧ Qualidade_Servico l = c) df)))
  ∧ (∀ (i j : nat) (r c : string),
       index (material_setor df) !! i = Some r →
       columns (material_setor df) !! j = Some c →
       values (material_setor df) !! i ≫= (.!! j) =
         Some (length (filter (λ l, Setor l = r ∧ Material_Faltando l = Some c) df))).
Proof.
  split; intros i j r c Hi Hj.
  - rewrite <- conta_pares_setor_qualidade. by apply crosstab_celula.
  - rewrite <- conta_pares_setor_material. by apply crosstab_celula.
Qed.

(** X15.  No row of the sector by rating table is all zeros: the cells of
    the row of a sector add up to the number of rows of the frame with that
    sector, which is the count of that sector in the chart of line 97. *)
Theorem heatmap_soma_por_setor (df : DataFrame) (i : nat) (r : string)
    (Hi : index (qualidade_setor df) !! i = Some r) :
  ∃ linha : list nat,
    values (qualidade_setor df) !! i = Some linha
    ∧ 0 < sum_list linha
    ∧ sum_list linha = length (filter (λ l, Setor l = r) df)
    ∧ (r, sum_list linha) ∈ setor_counts df.
Proof.
  destruct (crosstab_soma_linha (pares_setor_qualidade df) i r Hi)
    as (linha & Hl & Hsum & Hpos).
  assert ((pares_setor_qualidade df).*1 = Setor <$> df) as Hcol.
  { unfold pares_setor_qualidade. by rewrite <- list_fmap_compose. }
  rewrite Hcol in Hsum. exists linha. split_and!; [done|done| |].
  - by rewrite Hsum, conta_fmap.
  - unfold setor_counts. apply elem_of_value_counts. split; [|done].
    apply conta_pos. by rewrite <- Hsum.
Qed.

Lemma heatmap_soma_por_setor_witness :
  ∃ linha : list nat,
    values (qualidade_setor df_dez) !! 1 = Some linha
    ∧ 0 < sum_list linha
    ∧ sum_list linha = length (filter (λ l, Setor l = "B") df_dez)
    ∧ ("B", sum_list linha) ∈ setor_counts df_dez.
Proof. apply (heatmap_soma_por_setor df_dez 1 "B"). reflexivity. Defined.

(** X16.  The two tables depend on the rows of the frame, not on their
    order. *)
Theorem tabelas_sem_ordem (df df' : DataFrame) (Hp : df ≡ₚ df') :
  qualidade_setor df = qualidade_setor df'
  ∧ material_setor df = material_setor df'.
Proof.
  unfold qualidade_setor, material_setor, pares_setor_qualidade, pares_setor_material.
  split; apply crosstab_Permutation; by rewrite Hp.
Qed.

Lemma tabelas_sem_ordem_witness :
  qualidade_setor df_BA = qualidade_setor (reverse df_BA)
  ∧ material_setor df_BA = material_setor (reverse df_BA).
Proof. apply tabelas_sem_ordem. symmetry. apply reverse_Permutation. Defined.

(** ** More on the daily series *)

Section SerieMais.
Implicit Types (df : DataFrame).

Lemma dt_date_mono (t1 t2 : Z) : (t1 ≤ t2)%Z → (dt_date t1 ≤ dt_date t2)%Z.
Proof. intros H. unfold dt_date. apply Z.div_le_mono; lia. Qed.

Lemma StronglySorted_last {B} (R : relation B) `{!Reflexive R} (l : list B) (m : B) :
  StronglySorted R l → last l = Some m → ∀ k, k ∈ l → R k m.
Proof.
  induction 1 as [|x l Hl IH Hx]; [done|].
  destruct l as [|y l'].
  - intros [= ->] k Hk. apply list_elem_of_singleton in Hk as ->. done.
  - intros Hlast k [->|Hk]%elem_of_cons.
    + rewrite Forall_forall in Hx. apply Hx.
      change (last (x :: y :: l')) with (last (y :: l')) in Hlast.
      by apply last_Some_elem_of.
    + by apply IH.
Qed.

Lemma datas_Permutation df df' :
  df ≡ₚ df' → omap id (coluna_Data df) ≡ₚ omap id (coluna_Data df').
Proof. intros Hp. unfold coluna_Data. by rewrite Hp. Qed.

End SerieMais.

(** X17.  Whatever the frame, the counts of the daily series add up to the
    number of rows that have a timestamp, and the series is empty exactly
    when no row has one. *)
Theorem serie_diaria_sem_datas (df : DataFrame) :
  sum_list (respostas_diarias df).*2 =
    length (filter (λ l, is_Some (Data_Registro l)) df)
  ∧ (respostas_diarias df = [] ↔ ∀ l, l ∈ df → Data_Registro l = None).
Proof.
  split; [apply respostas_diarias_soma|].
  unfold respostas_diarias, groupby_size. split.
  - intros Hnil%fmap_nil_inv l Hl. destruct (Data_Registro l) as [t|] eqn:Ht; [|done].
    assert (dt_date t ∈ chaves Z.le (omap id (coluna_Data df))) as Hin.
    { apply (elem_of_chaves Z.le), elem_of_datas. exists l. by rewrite Ht. }
    rewrite Hnil in Hin. by apply elem_of_nil in Hin.
  - intros Hnone.
    assert (chaves Z.le (omap id (coluna_Data df)) = []) as ->; [|done].
    apply elem_of_nil_inv. intros d Hd.
    apply (elem_of_chaves Z.le), elem_of_datas in Hd as (l & Hl & Hd).
    by rewrite (Hnone l Hl) in Hd.
Qed.

(** X18.  The daily series depends on the rows of the frame, not on their
    order. *)
Theorem serie_diaria_sem_ordem (df df' : DataFrame) (Hp : df ≡ₚ df') :
  respostas_diarias df = respostas_diarias df'.
Proof.
  unfold respostas_diarias, groupby_size.
  pose proof (datas_Permutation df df' Hp) as Hd.
  rewrite (chaves_Permutation Z.le _ _ Hd).
  apply list_fmap_ext. intros _ k _. f_equal. by apply conta_Permutation.
Qed.

Lemma serie_diaria_sem_ordem_witness :
  respostas_diarias df_BA = respostas_diarias (reverse df_BA).
Proof. apply serie_diaria_sem_ordem. symmetry. apply reverse_Permutation. Defined.

(** X19.  The last point of the daily series is the day of the latest
    answer, the one "Última Resposta" is computed from; there is no last
    point exactly when there is no latest answer. *)
Theorem serie_termina_na_ultima (df : DataFrame) :
  last (respostas_diarias df).*1 = dt_date <$> ultima_resposta df.
Proof.
  unfold respostas_diarias. rewrite (groupby_size_chaves Z.le).
  pose proof (ultima_resposta_maximo_aux df) as Hu.
  pose proof (StronglySorted_chaves Z.le (omap id (coluna_Data df))) as Hs.
  destruct (ultima_resposta df) as [u|]; cbn.
  - destruct Hu as [(l & Hl & Hlu) Hmax].
    assert (dt_date u ∈ chaves Z.le (omap id (coluna_Data df))) as Hin.
    { apply (elem_of_chaves Z.le), elem_of_datas. exists l. by rewrite Hlu. }
    destruct (last (chaves Z.le (omap id (coluna_Data df)))) as [m|] eqn:Hlast.
    + f_equal. apply Z.le_antisymm.
      * apply last_Some_elem_of in Hlast.
        apply (elem_of_chaves Z.le), elem_of_datas in Hlast as (l' & Hl' & Hd).
        destruct (Data_Registro l') as [t|] eqn:Ht; [|done].
        injection Hd as <-. apply dt_date_mono. by eapply Hmax.
      * by apply (StronglySorted_last Z.le _ m Hs Hlast).
    + apply last_None in Hlast. rewrite Hlast in Hin. by apply elem_of_nil in Hin.
  - assert (chaves Z.le (omap id (coluna_Data df)) = []) as ->; [|done].
    apply elem_of_nil_inv. intros d Hd.
    apply (elem_of_chaves Z.le), elem_of_datas in Hd as (l & Hl & Hd).
    by rewrite (Hu l Hl) in Hd.
Qed.

(** X20.  [.dt.date] puts an instant in the day that contains it, also
    before the epoch: day [d] holds the instants from [86400 d] up to, not
    including, [86400 (d + 1)], and a later instant never falls in an
    earlier day. *)
Theorem dt_date_dia (t : Z) :
  (∀ d : Z, dt_date t = d ↔ (86400 * d ≤ t < 86400 * (d + 1))%Z)
  ∧ (∀ t' : Z, (t ≤ t')%Z → (dt_date t ≤ dt_date t')%Z).
Proof.
  split; [|apply dt_date_mono].
  intros d. unfold dt_date.
  pose proof (Z.div_mod t 86400 ltac:(lia)) as Hdm.
  pose proof (Z.mod_pos_bound t 86400 ltac:(lia)) as Hm.
  split; [intros <-; lia|]. intros [H1 H2].
  symmetry. apply (Z.div_unique_pos t 86400 d (t - 86400 * d)); lia.
Qed.

(** ** More on the filters and their statistics *)

Section FiltroMais.
Implicit Types (df : DataFrame) (l : Linha) (ss qs : list string) (m : string).

Lemma unique_sublist {A} `{EqDecision A} (s : list A) : unique s `sublist_of` s.
Proof.
  induction s as [|x s IH]; [done|]. cbn [unique].
  apply sublist_skip. by etrans; [apply sublist_filter|].
Qed.

Lemma filter_sublist_impl {A} (P Q : A → Prop)
    `{!∀ x, Decision (P x)} `{!∀ x, Decision (Q x)} (k : list A) :
  (∀ x, P x → Q x) → filter P k `sublist_of` filter Q k.
Proof.
  intros HPQ. rewrite <- (list_filter_filter_l P Q k HPQ). apply sublist_filter.
Qed.

Lemma length_por_texto (k : DataFrame) :
  length k =
    length (filter (λ l, Material_Faltando l = Some Sim) k)
    + length (filter (λ l, Material_Faltando l = Some Nao) k)
    + length (filter (λ l, Material_Faltando l ≠ Some Sim
                           ∧ Material_Faltando l ≠ Some Nao) k).
Proof.
  induction k as [|l k IH]; [done|]. rewrite !filter_cons.
  destruct (decide (Material_Faltando l = Some Sim)) as [Hs|Hs].
  - rewrite decide_False by (rewrite Hs; done).
    rewrite decide_False by naive_solver. cbn [length]. lia.
  - destruct (decide (Material_Faltando l = Some Nao)) as [Hn|Hn].
    + rewrite decide_False by naive_solver. cbn [length]. lia.
    + rewrite decide_True by done. cbn [length]. lia.
Qed.

Lemma mode_Permutation (s s' : list string) : s ≡ₚ s' → mode s = mode s'.
Proof.
  intros Hp. unfold mode.
  apply (StronglySorted_unique Rotulo.le);
    try (apply StronglySorted_merge_sort; apply _).
  rewrite !merge_sort_Permutation.
  assert (remove_dups s ≡ₚ remove_dups s') as Hr.
  { apply NoDup_Permutation; try apply NoDup_remove_dups.
    intros x. by rewrite !elem_of_remove_dups, Hp. }
  assert (max_list_with (λ v, conta v s) (remove_dups s) =
          max_list_with (λ v, conta v s') (remove_dups s')) as ->.
  { rewrite Hr. generalize (remove_dups s'). intros k.
    induction k as [|x k IH]; [done|]. cbn.
    by rewrite IH, (conta_Permutation x s s' Hp). }
  rewrite Hr.
  set (M := max_list_with (λ v, conta v s') (remove_dups s')).
  assert (filter (λ v, conta v s = M) (remove_dups s') =
          filter (λ v, conta v s' = M) (remove_dups s')) as ->; [|done].
  apply list_filter_iff. intros v. by rewrite (conta_Permutation v s s' Hp).
Qed.

End FiltroMais.

(** X21.  The options of the two multiselects hold each sector, and each
    rating, of the frame exactly once, in the order of the frame, starting
    with the one of the first row. *)
Theorem opcoes_dos_filtros (df : DataFrame) :
  (NoDup (setores_padrao df)
   ∧ (∀ s, s ∈ setores_padrao df ↔ ∃ l, l ∈ df ∧ Setor l = s)
   ∧ setores_padrao df `sublist_of` (Setor <$> df)
   ∧ head (setores_padrao df) = Setor <$> head df)
  ∧ (NoDup (qualidades_padrao df)
     ∧ (∀ q, q ∈ qualidades_padrao df ↔ ∃ l, l ∈ df ∧ Qualidade_Servico l = q)
     ∧ qualidades_padrao df `sublist_of` (Qualidade_Servico <$> df)
     ∧ head (qualidades_padrao df) = Qualidade_Servico <$> head df).
Proof.
  unfold setores_padrao, qualidades_padrao. split; split_and!.
  - apply NoDup_unique.
  - intros s. rewrite elem_of_unique, list_elem_of_fmap. naive_solver.
  - apply unique_sublist.
  - by destruct df.
  - apply NoDup_unique.
  - intros s. rewrite elem_of_unique, list_elem_of_fmap. naive_solver.
  - apply unique_sublist.
  - by destruct df.
Qed.

(** X22.  With the selections the page starts with, the table shows every
    row of the frame; switching the select box to "Sim" and leaving the rest
    leaves as many rows as the "Material Faltando" metric counts. *)
Theorem filtro_inicial (df : DataFrame) :
  df_filtrado df (setores_padrao df) (qualidades_padrao df) Todos = df
  ∧ length (df_filtrado df (setores_padrao df) (qualidades_padrao df) Sim)
      = material_faltando df.
Proof.
  assert (filter (mascara_setor_qualidade (setores_padrao df) (qualidades_padrao df)) df = df)
    as Hpadrao.
  { rewrite <- df_filtrado_Todos.
    rewrite df_filtrado_filter. 
    assert (∀ k : DataFrame, (∀ l, l ∈ k → l ∈ df) →
              filter (passa (setores_padrao df) (qualidades_padrao df) Todos) k = k)
      as H; [|by apply H].
    induction k as [|l k IH]; [done|]. intros Hk.
    rewrite filter_cons, decide_True.
    - f_equal. apply IH. intros; apply Hk; by right.
    - unfold passa, mascara_setor_qualidade, isin, setores_padrao, qualidades_padrao.
      rewrite !elem_of_unique, !list_elem_of_fmap.
      split; [|by left]. split; exists l; (split; [done|apply Hk; by left]). }
  split.
  - by rewrite df_filtrado_Todos.
  - rewrite df_filtrado_nao_Todos by done. by rewrite Hpadrao.
Qed.

(** X23.  Selecting more sectors or more ratings never hides a row: the
    table for the smaller selections is the table for the larger ones with
    some rows left out. *)
Theorem filtro_monotono (df : DataFrame) (ss ss' qs qs' : list string) (m : string)
    (Hss : ss ⊆ ss') (Hqs : qs ⊆ qs') :
  df_filtrado df ss qs m `sublist_of` df_filtrado df ss' qs' m.
Proof.
  rewrite !df_filtrado_filter. apply filter_sublist_impl.
  unfold passa, mascara_setor_qualidade, isin. intros l [[Hs Hq] Hm].
  split; [split|done]; [by apply Hss|by apply Hqs].
Qed.

Lemma filtro_monotono_witness :
  df_filtrado df_dez ["B"] [Bom] Todos
    `sublist_of` df_filtrado df_dez ["A"; "B"] [Muito_Bom; Bom] Todos.
Proof.
  apply filtro_monotono; intros x Hx;
    apply list_elem_of_singleton in Hx as ->; by repeat constructor.
Defined.

(** X24.  Filtering a filtered table is filtering once by what both
    selections have in common, so two filterings can be done in either
    order. *)
Theorem filtro_composto (df : DataFrame) (ss1 ss2 qs1 qs2 : list string) (m1 m2 : string) :
  df_filtrado (df_filtrado df ss1 qs1 m1) ss2 qs2 m1 =
    df_filtrado df (filter (.∈ ss2) ss1) (filter (.∈ qs2) qs1) m1
  ∧ df_filtrado (df_filtrado df ss1 qs1 m1) ss2 qs2 m2 =
      df_filtrado (df_filtrado df ss2 qs2 m2) ss1 qs1 m1.
Proof.
  rewrite !df_filtrado_filter, !list_filter_filter. split.
  - apply list_filter_iff. intros l.
    unfold passa, mascara_setor_qualidade, isin.
    rewrite !list_elem_of_filter. naive_solver.
  - apply list_filter_iff. naive_solver.
Qed.

(** X25.  The rows shown under "Todos" are those shown under "Sim", those
    shown under "Não" and those whose text is neither; a row without text is
    shown under "Todos" only. *)
Theorem filtro_por_texto (df : DataFrame) (ss qs : list string) :
  length (df_filtrado df ss qs Todos) =
    length (df_filtrado df ss qs Sim) + length (df_filtrado df ss qs Nao)
    + length (filter (λ l, Material_Faltando l ≠ Some Sim
                           ∧ Material_Faltando l ≠ Some Nao)
                     (df_filtrado df ss qs Todos))
  ∧ (∀ l m, l ∈ df_filtrado df ss qs m → Material_Faltando l = None → m = Todos).
Proof.
  split.
  - rewrite (df_filtrado_nao_Todos df ss qs Sim) by done.
    rewrite (df_filtrado_nao_Todos df ss qs Nao) by done.
    rewrite df_filtrado_Todos. apply length_por_texto.
  - intros l m [_ (_ & _ & [?|Hm])]%elem_of_df_filtrado Hnone; [done|].
    by rewrite Hnone in Hm.
Qed.

(** X26.  The statistics block never raises.  It is absent exactly for the
    empty table; otherwise it shows the number of rows, which is not 0, the
    rating of line 250, which is a rating of the table, and a count of
    missing material that does not exceed the number of rows. *)
Theorem estatisticas_bloco (dff : DataFrame) :
  ∃ o : option Estatisticas,
    estatisticas dff = Ok o
    ∧ (o = None ↔ dff = [])
    ∧ ∀ e, o = Some e →
        respostas_filtradas e = length dff
        ∧ 0 < respostas_filtradas e
        ∧ media_qualidade dff = Ok (avaliacao_mais_comum e)
        ∧ avaliacao_mais_comum e ∈ Qualidade_Servico <$> dff
        ∧ material_faltando_filtrado e = material_falta_filtrado dff
        ∧ material_faltando_filtrado e ≤ respostas_filtradas e.
Proof.
  destruct dff as [|l dff].
  - exists None. by split_and!.
  - set (s := Qualidade_Servico <$> l :: dff).
    pose proof (mode_nao_vazio s ltac:(done)) as Hne.
    unfold estatisticas, media_qualidade. cbn [empty negb]. fold s.
    destruct (mode s) as [|q ms] eqn:Hm; [done|].
    unfold mbind, resultado_bind, Py.bind, primeiro.
    eexists. split; [done|]. split; [done|]. intros e [= <-].
    cbn [respostas_filtradas avaliacao_mais_comum material_faltando_filtrado].
    split_and!; try done; try (cbn [length]; lia).
    + assert (q ∈ mode s) as [Hq _]%elem_of_mode by (rewrite Hm; by left). done.
    + apply (length_filter _ (l :: dff)).
Qed.

(** X27.  With "Sim" selected the block's count of missing material equals
    its number of rows; with "Não" selected it is 0. *)
Theorem estatisticas_por_selecao (df : DataFrame) (ss qs : list string) :
  material_falta_filtrado (df_filtrado df ss qs Sim) = length (df_filtrado df ss qs Sim)
  ∧ material_falta_filtrado (df_filtrado df ss qs Nao) = 0.
Proof.
  unfold material_falta_filtrado.
  rewrite (df_filtrado_nao_Todos df ss qs Sim) by done.
  rewrite (df_filtrado_nao_Todos df ss qs Nao) by done. split.
  - f_equal. by apply list_filter_filter_l.
  - apply length_zero_iff_nil, elem_of_nil_inv.
    intros l [Hs [Hn _]%list_elem_of_filter]%list_elem_of_filter.
    rewrite Hs in Hn. done.
Qed.

(** X28.  The rating reported for a table depends on its rows, not on their
    order. *)
Theorem media_qualidade_sem_ordem (dff dff' : DataFrame) (Hp : dff ≡ₚ dff') :
  media_qualidade dff = media_qualidade dff'.
Proof.
  unfold media_qualidade.
  assert (empty dff = empty dff') as ->.
  { destruct dff, dff'; try done.
    - by apply Permutation_nil_cons in Hp.
    - symmetry in Hp. by apply Permutation_nil_cons in Hp. }
  rewrite (mode_Permutation (Qualidade_Servico <$> dff) (Qualidade_Servico <$> dff'));
    [done|by rewrite Hp].
Qed.

Lemma media_qualidade_sem_ordem_witness :
  media_qualidade df_BA = media_qualidade (reverse df_BA).
Proof. apply media_qualidade_sem_ordem. symmetry. apply reverse_Permutation. Defined.
